(** * A shallow embedding of [runtime/art_method.cc] (ART with the Xposed hook)

    The development models the parts of [ArtMethod] used by method
    invocation, catch-block lookup, code-header lookup, native registration
    and the Xposed hook installer.  Method descriptors live in a store
    indexed by their address; the runtime collaborators (class linker, JIT
    code cache, interpreter, debugger) are the fields of a [Runtime] record;
    fatal [CHECK]/[DCHECK] failures are the [Abort] outcome, Java exceptions
    are the pending exception of the current thread. *)

From Stdlib Require Import ZArith Bool List String Ascii.
From stdpp Require Import base gmap list.
Import ListNotations.
Open Scope Z_scope.

(* ------------------------------------------------------------------ *)
(** ** Access flags (modifiers.h, with the Xposed additions) *)

Definition kAccSynchronized : Z := 32.            (* 0x0020 *)
Definition kAccNative : Z := 256.                 (* 0x0100 *)
Definition kAccAbstract : Z := 1024.              (* 0x0400 *)
Definition kAccConstructor : Z := 65536.          (* 0x00010000 *)
Definition kAccFastNative : Z := 524288.          (* 0x00080000 *)
Definition kAccDefault : Z := 4194304.            (* 0x00400000 *)
Definition kAccDefaultConflict : Z := 8388608.    (* 0x00800000 *)
Definition kAccXposedOriginalMethod : Z := 67108864. (* 0x04000000 *)
Definition kAccXposedHookedMethod : Z := 268435456.  (* 0x10000000 *)

Definition has_flag (flags bit : Z) : bool := negb (Z.land flags bit =? 0).

(** [DexFile::kDexNoIndex], [DexFile::kDexNoIndex16] and the opcode of
    [MOVE_EXCEPTION]. *)
Definition kDexNoIndex : Z := 4294967295.
Definition kDexNoIndex16 : Z := 65535.
Definition MOVE_EXCEPTION : Z := 13.

(* ------------------------------------------------------------------ *)
(** ** Method descriptors *)

(** The Xposed hook record ([XposedHookInfo]): a global reference to the
    reflected backup method, a global reference to the caller's payload and
    the backup descriptor itself. *)
Record XposedHookInfo := {
  reflected_method : nat;      (* reflected Method/Constructor of the backup *)
  additional_info : Z;         (* payload passed to EnableXposedHook *)
  original_method : nat        (* address of the backup ArtMethod *)
}.

(** [entry_point_from_jni_] holds either a plain pointer (native code,
    profiling info, null) or, once hooked, the hook record. *)
Inductive JniEntry :=
| JniPtr (p : Z)
| JniHookInfo (h : XposedHookInfo).

(** A try item of the code item and its catch handlers, in table order:
    (type index, handler address). *)
Record TryItem := {
  try_start : Z;
  try_count : Z;
  try_handlers : list (Z * Z)
}.

Record CodeItem := {
  tries : list TryItem;
  insns : list Z                (* 16-bit code units *)
}.

Record ArtMethod := {
  declaring_class : Z;
  access_flags : Z;
  dex_code_item_offset : Z;
  dex_method_index : Z;
  hotness_count : Z;
  entry_point_from_jni : JniEntry;
  entry_point_from_quick_compiled_code : Z;
  ignore_aot_code : bool;
  declaring_class_is_proxy : bool;
  code_item : CodeItem;
  shorty : string
}.

Definition set_access_flags (f : Z) (m : ArtMethod) : ArtMethod :=
  {| declaring_class := declaring_class m; access_flags := f;
     dex_code_item_offset := dex_code_item_offset m;
     dex_method_index := dex_method_index m; hotness_count := hotness_count m;
     entry_point_from_jni := entry_point_from_jni m;
     entry_point_from_quick_compiled_code := entry_point_from_quick_compiled_code m;
     ignore_aot_code := ignore_aot_code m;
     declaring_class_is_proxy := declaring_class_is_proxy m;
     code_item := code_item m; shorty := shorty m |}.

Definition set_entry_point_from_jni (e : JniEntry) (m : ArtMethod) : ArtMethod :=
  {| declaring_class := declaring_class m; access_flags := access_flags m;
     dex_code_item_offset := dex_code_item_offset m;
     dex_method_index := dex_method_index m; hotness_count := hotness_count m;
     entry_point_from_jni := e;
     entry_point_from_quick_compiled_code := entry_point_from_quick_compiled_code m;
     ignore_aot_code := ignore_aot_code m;
     declaring_class_is_proxy := declaring_class_is_proxy m;
     code_item := code_item m; shorty := shorty m |}.

Definition set_entry_point_from_quick_compiled_code (p : Z) (m : ArtMethod) : ArtMethod :=
  {| declaring_class := declaring_class m; access_flags := access_flags m;
     dex_code_item_offset := dex_code_item_offset m;
     dex_method_index := dex_method_index m; hotness_count := hotness_count m;
     entry_point_from_jni := entry_point_from_jni m;
     entry_point_from_quick_compiled_code := p;
     ignore_aot_code := ignore_aot_code m;
     declaring_class_is_proxy := declaring_class_is_proxy m;
     code_item := code_item m; shorty := shorty m |}.

Definition set_code_item_offset (o : Z) (m : ArtMethod) : ArtMethod :=
  {| declaring_class := declaring_class m; access_flags := access_flags m;
     dex_code_item_offset := o;
     dex_method_index := dex_method_index m; hotness_count := hotness_count m;
     entry_point_from_jni := entry_point_from_jni m;
     entry_point_from_quick_compiled_code := entry_point_from_quick_compiled_code m;
     ignore_aot_code := ignore_aot_code m;
     declaring_class_is_proxy := declaring_class_is_proxy m;
     code_item := code_item m; shorty := shorty m |}.

Definition set_hotness_count (c : Z) (m : ArtMethod) : ArtMethod :=
  {| declaring_class := declaring_class m; access_flags := access_flags m;
     dex_code_item_offset := dex_code_item_offset m;
     dex_method_index := dex_method_index m; hotness_count := c;
     entry_point_from_jni := entry_point_from_jni m;
     entry_point_from_quick_compiled_code := entry_point_from_quick_compiled_code m;
     ignore_aot_code := ignore_aot_code m;
     declaring_class_is_proxy := declaring_class_is_proxy m;
     code_item := code_item m; shorty := shorty m |}.

Definition set_ignore_aot_code (m : ArtMethod) : ArtMethod :=
  {| declaring_class := declaring_class m; access_flags := access_flags m;
     dex_code_item_offset := dex_code_item_offset m;
     dex_method_index := dex_method_index m; hotness_count := hotness_count m;
     entry_point_from_jni := entry_point_from_jni m;
     entry_point_from_quick_compiled_code := entry_point_from_quick_compiled_code m;
     ignore_aot_code := true;
     declaring_class_is_proxy := declaring_class_is_proxy m;
     code_item := code_item m; shorty := shorty m |}.

(** Modelled from the spec: the flag accessors of [art_method.h] (not
    under src/), each a test of one access-flag bit. *)
Definition IsNative (m : ArtMethod) : bool := has_flag (access_flags m) kAccNative.
Definition IsFastNative (m : ArtMethod) : bool := has_flag (access_flags m) kAccFastNative.
Definition IsConstructor (m : ArtMethod) : bool := has_flag (access_flags m) kAccConstructor.
Definition IsXposedHookedMethod (m : ArtMethod) : bool :=
  has_flag (access_flags m) kAccXposedHookedMethod.
Definition IsXposedOriginalMethod (m : ArtMethod) : bool :=
  has_flag (access_flags m) kAccXposedOriginalMethod.
Definition IsRuntimeMethod (m : ArtMethod) : bool := dex_method_index m =? kDexNoIndex.
Definition IsRealProxyMethod (m : ArtMethod) : bool :=
  declaring_class_is_proxy m && negb (IsXposedHookedMethod m).

(** Modelled from the spec: [GetXposedHookInfo()->original_method], the
    Backup Descriptor kept in the hook record. *)
Definition GetXposedOriginalMethod (m : ArtMethod) : option nat :=
  match entry_point_from_jni m with
  | JniHookInfo h => Some (original_method h)
  | JniPtr _ => None
  end.

(* ------------------------------------------------------------------ *)
(** ** Runtime collaborators *)

(** An [OatQuickMethodHeader]: the start of its code and [code_size_]. *)
Record OatQuickMethodHeader := {
  hdr_code : Z;
  hdr_code_size : Z
}.

(** Modelled from the spec: [OatQuickMethodHeader::Contains], the
    half-open range [start, start+size). *)
Definition Contains (h : OatQuickMethodHeader) (pc : Z) : bool :=
  (hdr_code h <=? pc) && (pc <? hdr_code h + hdr_code_size h).

Inductive Exc :=
| ExcObject (o : Z)
| StackOverflowError
| IllegalArgumentException (msg : string)
| NoClassDefFoundError (type_idx : Z)
| DeoptimizationException.

(* ------------------------------------------------------------------ *)
(** ** Runtime state *)

Inductive Event :=
| EvCreateRuntimeMethod (m : nat)
| EvThreadSuspended
| EvJitSuspend
| EvGcCriticalEnter
| EvSuspendAll
| EvInvalidateCallers (m : nat)
| EvMoveObsoleteMethod (from to : nat)
| EvThreadListLock
| EvWalkStack (tid : nat)
| EvInstrumentThreadStack (tid : nat)
| EvThreadListUnlock
| EvResumeAll
| EvGcCriticalExit
| EvJitResume
| EvThreadRunnable
| EvJitInvalidateCompiledCode (m : nat)
| EvLogWarning (type_idx : Z)
| EvLogInfo (m : nat).

(** The method store, the stacks of all threads (each frame is the
    address of the method it runs) and the state of the current thread. *)
Record State := {
  methods : gmap nat ArtMethod;
  stacks : list (list nat);
  exception : option Exc;
  long_jump_context : bool;
  managed_stack : nat;
  log : list Event
}.

Definition set_methods (ms : gmap nat ArtMethod) (s : State) : State :=
  {| methods := ms; stacks := stacks s;
     exception := exception s; long_jump_context := long_jump_context s;
     managed_stack := managed_stack s; log := log s |}.

Definition set_exception (e : option Exc) (s : State) : State :=
  {| methods := methods s; stacks := stacks s;
     exception := e; long_jump_context := long_jump_context s;
     managed_stack := managed_stack s; log := log s |}.

Definition emit (evs : list Event) (s : State) : State :=
  {| methods := methods s; stacks := stacks s;
     exception := exception s; long_jump_context := long_jump_context s;
     managed_stack := managed_stack s; log := log s ++ evs |}.

Definition update_method (id : nat) (m : ArtMethod) (s : State) : State :=
  set_methods (<[id := m]> (methods s)) s.

(** Fatal assertion failures abort the runtime. *)
Inductive outcome (A : Type) :=
| Ok (a : A)
| Abort (reason : string).
Arguments Ok {A} a.
Arguments Abort {A} reason.

Definition obind {A B} (c : outcome A) (k : A -> outcome B) : outcome B :=
  match c with Ok a => k a | Abort r => Abort r end.

Notation "'let!' x := c 'in' k" := (obind c (fun x => k))
  (at level 200, x name, c at level 100, k at level 200).

Record Runtime := {
  kIsDebugBuild : bool;
  IsStarted : bool;
  UseJitCompilation : bool;
  HasJit : bool;                                   (* GetJit() != nullptr *)
  JitContainsPc : Z -> bool;                       (* code_cache->ContainsPc *)
  JitLookupMethodHeader : Z -> nat -> option OatQuickMethodHeader;
  IsForcedInterpreterNeededForCalling : nat -> bool;
  IsForcedInterpretOnly : bool;
  QuickProxyInvokeHandler : Z;
  QuickToInterpreterBridge : Z;
  QuickGenericJniStub : Z;
  QuickResolutionStub : Z;
  QuickInstrumentationEntryPoint : Z;
  QuickInstrumentationExitPc : Z;
  JniDlsymLookupStub : Z;
  CodeSizeAt : Z -> Z;                             (* code_size_ of the header before a code start *)
  FindOatMethodFor : nat -> option Z;              (* found, and the oat quick code *)
  GetOatMethodQuickCodeFor : nat -> Z;
  GetClassFromTypeIndex : Z -> option Z;           (* resolve = true *)
  IsAssignableFrom : Z -> Z -> bool;
  (* The current thread's [AssertThreadSuspensionIsAllowable()] holds:
     outside any no-suspension region, no lock other than the mutator
     lock held. *)
  ThreadSuspensionAllowable : bool;
  ImagePointerSize : Z;                            (* GetClassLinker()->GetImagePointerSize() *)
  PointerSize : Z;                                 (* the size of a native pointer *)
  (* The code [Invoke] runs: each takes the method, the value behind
     [result] and the state, and returns the new value behind [result]
     and the new state, or aborts. *)
  Interpret : nat -> option Z -> State -> outcome (option Z * State);
      (* EnterInterpreterFromInvoke(..., stay_in_interpreter = true) *)
  QuickInvokeStub : nat -> option Z -> State -> outcome (option Z * State);
      (* art_quick_invoke(_static)_stub *)
  DeoptimizeWithDeoptimizationException : option Z -> State -> outcome (option Z * State)
      (* Thread::DeoptimizeWithDeoptimizationException *)
}.

Definition FromEntryPoint (rt : Runtime) (ep : Z) : OatQuickMethodHeader :=
  {| hdr_code := ep; hdr_code_size := CodeSizeAt rt ep |}.

Definition CHECK {A} (b : bool) (msg : string) (k : outcome A) : outcome A :=
  if b then k else Abort msg.

Definition DCHECK {A} (rt : Runtime) (b : bool) (msg : string) (k : outcome A) : outcome A :=
  if kIsDebugBuild rt && negb b then Abort msg else k.

Definition set_stacks (sts : list (list nat)) (s : State) : State :=
  {| methods := methods s; stacks := sts;
     exception := exception s; long_jump_context := long_jump_context s;
     managed_stack := managed_stack s; log := log s |}.

(* ------------------------------------------------------------------ *)
(** ** [ArtMethod::CopyFrom] *)

(** The raw copy keeps every field, [declaring_class_] included; a JIT
    entry point is demoted to the interpreter bridge, the profiling info
    (stored in [entry_point_from_jni_] for non-native methods) is cleared and
    the hotness counter is reset. *)
Definition CopyFrom (rt : Runtime) (src : ArtMethod) : ArtMethod :=
  let m := src in
  let m := if UseJitCompilation rt
              && JitContainsPc rt (entry_point_from_quick_compiled_code m)
           then set_entry_point_from_quick_compiled_code (QuickToInterpreterBridge rt) m
           else m in
  let m := if negb (IsNative src) then set_entry_point_from_jni (JniPtr 0) m else m in
  set_hotness_count 0 m.

(* ------------------------------------------------------------------ *)
(** ** [StackReplaceMethodAndInstallInstrumentation] and [ThreadList::ForEach] *)

(** The visitor replaces every frame running [search] by
    [search->GetXposedOriginalMethod()], then the thread's stack is
    instrumented again.  (A [search] without hook record, which the caller
    never passes, leaves the frames as they are.) *)
Definition StackReplaceMethodAndInstallInstrumentation
    (ms : gmap nat ArtMethod) (search : nat) (tid : nat) (stack : list nat)
    : list nat * list Event :=
  let replace := match ms !! search ≫= GetXposedOriginalMethod with
                 | Some r => r
                 | None => search
                 end in
  (map (fun f => if Nat.eqb f search then replace else f) stack,
   [EvWalkStack tid; EvInstrumentThreadStack tid]).

Fixpoint ThreadListForEach (ms : gmap nat ArtMethod) (search : nat) (tid : nat)
    (sts : list (list nat)) : list (list nat) * list Event :=
  match sts with
  | [] => ([], [])
  | st :: rest =>
      let '(st', ev) := StackReplaceMethodAndInstallInstrumentation ms search tid st in
      let '(rest', evs) := ThreadListForEach ms search (S tid) rest in
      (st' :: rest', ev ++ evs)
  end.

(* ------------------------------------------------------------------ *)
(** ** [ArtMethod::EnableXposedHook] *)

Definition kRemoveFlags : Z :=
  Z.lor kAccNative (Z.lor kAccSynchronized (Z.lor kAccAbstract
    (Z.lor kAccDefault kAccDefaultConflict))).

(** The scoped guards [ScopedThreadSuspension], [ScopedJitSuspend],
    [ScopedGCCriticalSection], [ScopedSuspendAll] and the [MutexLock] on the
    thread list are released in reverse order at the end of the function. *)
Definition EnableXposedHook (rt : Runtime) (this : nat) (additional : Z) (s : State)
    : outcome State :=
  match methods s !! this with
  | None => Abort "invalid ArtMethod*"
  | Some m =>
    if IsXposedHookedMethod m then Ok s
    else if IsXposedOriginalMethod m then
      Ok (set_exception (Some (IllegalArgumentException "Cannot hook the method backup")) s)
    else
      (* CreateRuntimeMethod: fresh memory from the class loader's allocator *)
      let backup_id := fresh (dom (methods s)) in
      let backup := CopyFrom rt m in
      let backup := set_access_flags
                      (Z.lor (access_flags backup) kAccXposedOriginalMethod) backup in
      let hook_info := {| reflected_method := backup_id;
                          additional_info := additional;
                          original_method := backup_id |} in
      let s1 := emit [EvCreateRuntimeMethod backup_id] (update_method backup_id backup s) in
      let s2 := emit ([EvThreadSuspended; EvJitSuspend; EvGcCriticalEnter; EvSuspendAll;
                       EvInvalidateCallers this]
                      ++ (if HasJit rt then [EvMoveObsoleteMethod this backup_id] else []))
                     s1 in
      let m1 := set_entry_point_from_jni (JniHookInfo hook_info) m in
      let m2 := set_entry_point_from_quick_compiled_code (QuickProxyInvokeHandler rt) m1 in
      let m3 := set_code_item_offset 0 m2 in
      let m4 := set_access_flags
                  (Z.lor (Z.land (access_flags m3) (Z.lnot kRemoveFlags))
                         kAccXposedHookedMethod) m3 in
      let s3 := update_method this m4 s2 in
      let '(sts', evs) := ThreadListForEach (methods s3) this 0 (stacks s3) in
      Ok (set_stacks sts'
            (emit ([EvThreadListLock] ++ evs
                   ++ [EvThreadListUnlock; EvResumeAll; EvGcCriticalExit;
                       EvJitResume; EvThreadRunnable]) s3))
  end.

(* ------------------------------------------------------------------ *)
(** ** [ArtMethod::InvalidateCompiledCode] *)

Definition InvalidateCompiledCode (rt : Runtime) (this : nat) (s : State) : outcome State :=
  match methods s !! this with
  | None => Abort "invalid ArtMethod*"
  | Some m =>
    CHECK (negb (IsXposedHookedMethod m)) "Check failed: !IsXposedHookedMethod()"
      (let m1 := if ignore_aot_code m then m else set_ignore_aot_code m in
       let s1 := update_method this m1 s in
       if UseJitCompilation rt then Ok (emit [EvJitInvalidateCompiledCode this] s1)
       else Ok (update_method this
                  (set_entry_point_from_quick_compiled_code (QuickToInterpreterBridge rt) m1)
                  s1))
  end.

(* ------------------------------------------------------------------ *)
(** ** [ArtMethod::RegisterNative] and [ArtMethod::UnregisterNative] *)

(** A hooked method forwards the call to its backup.  The forwarding is a
    C++ recursion; [fuel] bounds it as the native stack does (running out of
    it is a crash). *)
Fixpoint RegisterNative (fuel : nat) (this : nat) (native_method : Z) (is_fast : bool)
    (s : State) : outcome State :=
  match fuel with
  | O => Abort "native stack exhausted"
  | S fuel' =>
    match methods s !! this with
    | None => Abort "invalid ArtMethod*"
    | Some m =>
      if IsXposedHookedMethod m then
        match GetXposedOriginalMethod m with
        | Some b => RegisterNative fuel' b native_method is_fast s
        | None => Abort "invalid XposedHookInfo"
        end
      else
        CHECK (IsNative m) "Check failed: IsNative()"
        (CHECK (negb (IsFastNative m)) "Check failed: !IsFastNative()"
        (CHECK (negb (native_method =? 0)) "Check failed: native_method != nullptr"
          (let m1 := if is_fast
                     then set_access_flags (Z.lor (access_flags m) kAccFastNative) m
                     else m in
           Ok (update_method this (set_entry_point_from_jni (JniPtr native_method) m1) s))))
    end
  end.

Fixpoint UnregisterNative (rt : Runtime) (fuel : nat) (this : nat) (s : State)
    : outcome State :=
  match fuel with
  | O => Abort "native stack exhausted"
  | S fuel' =>
    match methods s !! this with
    | None => Abort "invalid ArtMethod*"
    | Some m =>
      if IsXposedHookedMethod m then
        match GetXposedOriginalMethod m with
        | Some b => UnregisterNative rt fuel' b s
        | None => Abort "invalid XposedHookInfo"
        end
      else
        CHECK (IsNative m && negb (IsFastNative m)) "Check failed: IsNative() && !IsFastNative()"
          (* restore stub to lookup native pointer via dlsym *)
          (RegisterNative fuel this (JniDlsymLookupStub rt) false s)
    end
  end.

(* ------------------------------------------------------------------ *)
(** ** [ArtMethod::Invoke] *)

Definition set_managed_stack (n : nat) (s : State) : State :=
  {| methods := methods s; stacks := stacks s;
     exception := exception s; long_jump_context := long_jump_context s;
     managed_stack := n; log := log s |}.

(** [SetJ] through the [result] pointer: [None] is [nullptr]. *)
Definition write_result (result : option Z) (v : Z) : option Z :=
  match result with Some _ => Some v | None => None end.

(** [frame_address] is [__builtin_frame_address(0)], [stack_end] the
    thread's [GetStackEnd()], [runnable] whether the thread state is
    [kRunnable]; [result] is the value behind the [JValue*] ([None] for
    [nullptr]).  The result is the new state and the new value behind
    [result]. *)
Definition Invoke (rt : Runtime) (this : nat) (m : ArtMethod)
    (frame_address stack_end : Z) (runnable : bool) (shorty_arg : string)
    (result : option Z) (s : State) : outcome (State * option Z) :=
  if frame_address <? stack_end then
    Ok (set_exception (Some StackOverflowError) s, result)
  else
  CHECK (negb (kIsDebugBuild rt) || ThreadSuspensionAllowable rt)
        "Check failed: AssertThreadSuspensionIsAllowable"
  (CHECK (negb (kIsDebugBuild rt) || runnable) "Check failed: kRunnable == self->GetState()"
  (CHECK (negb (kIsDebugBuild rt) || String.eqb (shorty m) shorty_arg) "Check failed: shorty"
  ((* PushManagedStackFragment *)
   let s1 := set_managed_stack (S (managed_stack s)) s in
   let! r := (
     if negb (IsStarted rt) || IsForcedInterpreterNeededForCalling rt this then
       Interpret rt this result s1
     else
       DCHECK rt (ImagePointerSize rt =? PointerSize rt)
              "Check failed: GetImagePointerSize() == sizeof(void*)"
       (let have_quick_code := negb (entry_point_from_quick_compiled_code m =? 0) in
        if have_quick_code then
          CHECK (negb (kIsDebugBuild rt && IsForcedInterpretOnly rt) || negb (UseJitCompilation rt))
                "Check failed: !runtime->UseJitCompilation()"
          (CHECK (negb (kIsDebugBuild rt && IsForcedInterpretOnly rt)
                  || (GetOatMethodQuickCodeFor rt this =? 0)
                  || negb (GetOatMethodQuickCodeFor rt this
                             =? entry_point_from_quick_compiled_code m))
                 "Don't call compiled code when -Xint"
          (let! r2 := QuickInvokeStub rt this result s1 in
           let '(result2, s2) := r2 in
           if match exception s2 with Some DeoptimizationException => true | _ => false end
           then DeoptimizeWithDeoptimizationException rt result2 s2
           else Ok (result2, s2)))
        else
          Ok (write_result result 0, emit [EvLogInfo this] s1))) in
   let '(result', s2) := r in
   (* PopManagedStackFragment *)
   Ok (set_managed_stack (managed_stack s) s2, result')))).

(* ------------------------------------------------------------------ *)
(** ** [ArtMethod::FindCatchBlock] *)

(** [CatchHandlerIterator(code_item, dex_pc)]: the handlers of the try item
    covering [dex_pc], in table order; none when no try item covers it. *)
Definition CatchHandlers (ci : CodeItem) (dex_pc : Z) : list (Z * Z) :=
  match find (fun t => (try_start t <=? dex_pc) && (dex_pc <? try_start t + try_count t))
             (tries ci) with
  | Some t => try_handlers t
  | None => []
  end.

Definition set_long_jump_context (b : bool) (s : State) : State :=
  {| methods := methods s; stacks := stacks s;
     exception := exception s; long_jump_context := b;
     managed_stack := managed_stack s; log := log s |}.

(** The handler loop: the catch-all entry stops it; an unresolved type
    leaves a [NoClassDefFoundError] pending, which is cleared, the long
    jump context is deleted and a warning logged; a resolved type stops the
    loop when it is assignable from the thrown type. *)
Fixpoint FindCatchBlockLoop (rt : Runtime) (exception_type : Z) (hs : list (Z * Z))
    (s : State) : Z * State :=
  match hs with
  | [] => (kDexNoIndex, s)
  | (iter_type_idx, handler_address) :: rest =>
    if iter_type_idx =? kDexNoIndex16 then (handler_address, s)
    else
      match GetClassFromTypeIndex rt iter_type_idx with
      | None =>
        let s1 := set_exception (Some (NoClassDefFoundError iter_type_idx)) s in
        let s2 := set_exception None s1 in
        let s3 := set_long_jump_context false s2 in
        let s4 := emit [EvLogWarning iter_type_idx] s3 in
        FindCatchBlockLoop rt exception_type rest s4
      | Some iter_exception_type =>
        if IsAssignableFrom rt iter_exception_type exception_type
        then (handler_address, s)
        else FindCatchBlockLoop rt exception_type rest s
      end
  end.

(** [Instruction::At(&insns_[pc])->Opcode()]: the low byte of the code unit. *)
Definition OpcodeAt (ci : CodeItem) (pc : Z) : Z :=
  Z.land (nth (Z.to_nat pc) (insns ci) 0) 255.

(** Returns the handler address (or [kDexNoIndex]), the value left in
    [*has_no_move_exception] (given its value on entry) and the new state. *)
Definition FindCatchBlock (rt : Runtime) (m : ArtMethod) (exception_type dex_pc : Z)
    (has_no_move_exception : bool) (s : State) : Z * bool * State :=
  let code_item := code_item m in
  (* Set aside the exception while we resolve its type. *)
  let saved := exception s in
  let s0 := set_exception None s in
  let '(found_dex_pc, s1) :=
    FindCatchBlockLoop rt exception_type (CatchHandlers code_item dex_pc) s0 in
  let has_no_move_exception' :=
    if negb (found_dex_pc =? kDexNoIndex)
    then negb (OpcodeAt code_item found_dex_pc =? MOVE_EXCEPTION)
    else has_no_move_exception in
  (* Put the exception back. *)
  let s2 := match saved with Some e => set_exception (Some e) s1 | None => s1 end in
  (found_dex_pc, has_no_move_exception', s2).

(* ------------------------------------------------------------------ *)
(** ** [ArtMethod::GetOatQuickMethodHeader] *)

(** The JIT code cache step: [Some r] when the function returns [r]
    there, [None] when it falls through to the oat file. *)
Definition JitHeaderStep (rt : Runtime) (this : nat) (pc : Z)
    : outcome (option (option OatQuickMethodHeader)) :=
  if HasJit rt then
    match JitLookupMethodHeader rt pc this with
    | Some h => DCHECK rt (Contains h pc) "Check failed: method_header->Contains(pc)"
                  (Ok (Some (Some h)))
    | None => DCHECK rt (negb (JitContainsPc rt pc)) "Check failed: !code_cache->ContainsPc(pc)"
                (Ok None)
    end
  else Ok None.

Definition GetOatQuickMethodHeader (rt : Runtime) (this : nat) (m : ArtMethod) (pc : Z)
    : outcome (option OatQuickMethodHeader) :=
  DCHECK rt (negb (pc =? QuickInstrumentationExitPc rt)) "Check failed: pc != exit pc"
  (if IsRuntimeMethod m then Ok None else
   let existing_entry_point := entry_point_from_quick_compiled_code m in
   CHECK (negb (existing_entry_point =? 0)) "Check failed: existing_entry_point != nullptr"
   (if existing_entry_point =? QuickGenericJniStub rt then Ok None
    else if existing_entry_point =? QuickProxyInvokeHandler rt then
      DCHECK rt (IsXposedHookedMethod m || IsRealProxyMethod m && negb (IsConstructor m))
        "Check failed: proxy entry point" (Ok None)
    else
    let from_current :=
      if negb (existing_entry_point =? QuickResolutionStub rt)
         && negb (existing_entry_point =? QuickToInterpreterBridge rt)
      then let method_header := FromEntryPoint rt existing_entry_point in
           if Contains method_header pc then Some method_header else None
      else None in
    match from_current with
    | Some h => Ok (Some h)
    | None =>
      let! jr := JitHeaderStep rt this pc in
      match jr with
      | Some r => Ok r
      | None =>
        match FindOatMethodFor rt this with
        | None =>
          if existing_entry_point =? QuickResolutionStub rt then
            DCHECK rt (pc =? 0) "Should be a downcall"
              (DCHECK rt (IsNative m) "Check failed: IsNative()" (Ok None))
          else if existing_entry_point =? QuickInstrumentationEntryPoint rt then
            DCHECK rt (pc =? 0) "Should be a downcall"
              (DCHECK rt (IsNative m) "Check failed: IsNative()" (Ok None))
          else
            (* Only for unit tests. *)
            Ok (Some (FromEntryPoint rt existing_entry_point))
        | Some oat_entry_point =>
          if (oat_entry_point =? 0) || (oat_entry_point =? QuickGenericJniStub rt) then
            DCHECK rt (IsNative m) "Check failed: IsNative()" (Ok None)
          else
            let method_header := FromEntryPoint rt oat_entry_point in
            if pc =? 0 then
              DCHECK rt (IsNative m) "Check failed: IsNative()" (Ok (Some method_header))
            else
              DCHECK rt (Contains method_header pc) "Check failed: method_header->Contains(pc)"
                (Ok (Some method_header))
        end
      end
    end)).

(* ------------------------------------------------------------------ *)
(** ** A concrete runtime and store, to run the model on *)

(** Stubs at fixed addresses, every code blob 64 bytes long, type index 7
    unresolvable, class 1 a superclass of every class. *)
Definition rt0 : Runtime := {|
  kIsDebugBuild := true;
  IsStarted := true;
  UseJitCompilation := false;
  HasJit := false;
  JitContainsPc := fun _ => false;
  JitLookupMethodHeader := fun _ _ => None;
  IsForcedInterpreterNeededForCalling := fun _ => false;
  IsForcedInterpretOnly := false;
  QuickProxyInvokeHandler := 4096;
  QuickToInterpreterBridge := 4352;
  QuickGenericJniStub := 4608;
  QuickResolutionStub := 4864;
  QuickInstrumentationEntryPoint := 5120;
  QuickInstrumentationExitPc := 5376;
  JniDlsymLookupStub := 5632;
  CodeSizeAt := fun _ => 64;
  FindOatMethodFor := fun _ => None;
  GetOatMethodQuickCodeFor := fun _ => 0;
  GetClassFromTypeIndex := fun i => if i =? 7 then None else Some i;
  IsAssignableFrom := fun c e => (c =? e) || (c =? 1);
  ThreadSuspensionAllowable := true;
  ImagePointerSize := 8;
  PointerSize := 8;
  Interpret := fun _ r s => Ok (write_result r 42, s);
  QuickInvokeStub := fun _ r s => Ok (write_result r 7, s);
  DeoptimizeWithDeoptimizationException := fun r s => Ok (r, set_exception None s)
|}.

(** A synchronized public method with compiled code at 65536, one try
    item over [0, 10) with handlers for the unresolvable type 7, type 3
    and a catch-all; the code unit at 30 is a MOVE_EXCEPTION. *)
Definition m0 : ArtMethod := {|
  declaring_class := 5;
  access_flags := 33;
  dex_code_item_offset := 256;
  dex_method_index := 12;
  hotness_count := 3;
  entry_point_from_jni := JniPtr 0;
  entry_point_from_quick_compiled_code := 65536;
  ignore_aot_code := false;
  declaring_class_is_proxy := false;
  code_item := {| tries := [{| try_start := 0; try_count := 10;
                              try_handlers := [(7, 20); (3, 30); (65535, 40)] |}];
                  insns := repeat 0 30 ++ [13] ++ repeat 0 19 |};
  shorty := "V"
|}.

(** Method 1 is [m0]; thread 0 runs methods 1 and 2, thread 1 runs 3, 1, 1. *)
Definition s0 : State := {|
  methods := {[ 1%nat := m0 ]};
  stacks := [[1; 2]; [3; 1; 1]]%nat;
  exception := None;
  long_jump_context := true;
  managed_stack := 0;
  log := []
|}.

(* ------------------------------------------------------------------ *)
(** ** Sequences of descriptor operations *)

Inductive Op :=
| OpRegisterNative (id : nat) (native_method : Z) (is_fast : bool)
| OpUnregisterNative (id : nat)
| OpInvalidateCompiledCode (id : nat)
| OpEnableXposedHook (id : nat) (additional : Z).

Definition step (rt : Runtime) (fuel : nat) (op : Op) (s : State) : outcome State :=
  match op with
  | OpRegisterNative id p f => RegisterNative fuel id p f s
  | OpUnregisterNative id => UnregisterNative rt fuel id s
  | OpInvalidateCompiledCode id => InvalidateCompiledCode rt id s
  | OpEnableXposedHook id a => EnableXposedHook rt id a s
  end.

Fixpoint run (rt : Runtime) (fuel : nat) (ops : list Op) (s : State) : outcome State :=
  match ops with
  | [] => Ok s
  | op :: rest => let! s' := step rt fuel op s in run rt fuel rest s'
  end.

(** The descriptor written by a successful RegisterNative. *)
Definition registered (native_method : Z) (is_fast : bool) (m : ArtMethod) : ArtMethod :=
  set_entry_point_from_jni (JniPtr native_method)
    (if is_fast then set_access_flags (Z.lor (access_flags m) kAccFastNative) m else m).

(** Store well-formedness: a hooked descriptor's hook record names a
    backup in the store, which is a backup and is not hooked. *)
Definition hooks_wf (ms : gmap nat ArtMethod) : Prop :=
  forall i m, ms !! i = Some m -> IsXposedHookedMethod m = true ->
    exists b mb, GetXposedOriginalMethod m = Some b /\ ms !! b = Some mb /\
                 IsXposedHookedMethod mb = false /\ IsXposedOriginalMethod mb = true.

(** The descriptor a native (un)registration of [id] lands on carries the
    fast-native bit. *)
Definition fast_tainted (ms : gmap nat ArtMethod) (id : nat) : Prop :=
  exists m, ms !! id = Some m /\
    ((IsXposedHookedMethod m = false /\ IsFastNative m = true) \/
     (IsXposedHookedMethod m = true /\
      exists b mb, GetXposedOriginalMethod m = Some b /\ ms !! b = Some mb /\
                   IsFastNative mb = true)).

(** [rt0] with another build flavour and every method's oat code at [oat]. *)
Definition rt_with_oat (debug : bool) (oat : Z) : Runtime := {|
  kIsDebugBuild := debug;
  IsStarted := IsStarted rt0;
  UseJitCompilation := UseJitCompilation rt0;
  HasJit := HasJit rt0;
  JitContainsPc := JitContainsPc rt0;
  JitLookupMethodHeader := JitLookupMethodHeader rt0;
  IsForcedInterpreterNeededForCalling := IsForcedInterpreterNeededForCalling rt0;
  IsForcedInterpretOnly := IsForcedInterpretOnly rt0;
  QuickProxyInvokeHandler := QuickProxyInvokeHandler rt0;
  QuickToInterpreterBridge := QuickToInterpreterBridge rt0;
  QuickGenericJniStub := QuickGenericJniStub rt0;
  QuickResolutionStub := QuickResolutionStub rt0;
  QuickInstrumentationEntryPoint := QuickInstrumentationEntryPoint rt0;
  QuickInstrumentationExitPc := QuickInstrumentationExitPc rt0;
  JniDlsymLookupStub := JniDlsymLookupStub rt0;
  CodeSizeAt := CodeSizeAt rt0;
  FindOatMethodFor := fun _ => Some oat;
  GetOatMethodQuickCodeFor := fun _ => oat;
  GetClassFromTypeIndex := GetClassFromTypeIndex rt0;
  IsAssignableFrom := IsAssignableFrom rt0;
  ThreadSuspensionAllowable := ThreadSuspensionAllowable rt0;
  ImagePointerSize := ImagePointerSize rt0;
  PointerSize := PointerSize rt0;
  Interpret := Interpret rt0;
  QuickInvokeStub := QuickInvokeStub rt0;
  DeoptimizeWithDeoptimizationException := DeoptimizeWithDeoptimizationException rt0
|}.

(** [s0] with method 1 made native (public native, 0x0101). *)
Definition s_native : State := {|
  methods := {[ 1%nat := set_access_flags 257 m0 ]};
  stacks := stacks s0;
  exception := None;
  long_jump_context := true;
  managed_stack := 0;
  log := []
|}.

Definition run_or (d : State) (o : outcome State) : State :=
  match o with Ok s => s | Abort _ => d end.

(** [rt0] started or not, with the compiled code of every method writing
    7 through [result] and raising [exc], if any. *)
Definition rt_invoke (started : bool) (exc : option Exc) : Runtime := {|
  kIsDebugBuild := kIsDebugBuild rt0;
  IsStarted := started;
  UseJitCompilation := UseJitCompilation rt0;
  HasJit := HasJit rt0;
  JitContainsPc := JitContainsPc rt0;
  JitLookupMethodHeader := JitLookupMethodHeader rt0;
  IsForcedInterpreterNeededForCalling := IsForcedInterpreterNeededForCalling rt0;
  IsForcedInterpretOnly := IsForcedInterpretOnly rt0;
  QuickProxyInvokeHandler := QuickProxyInvokeHandler rt0;
  QuickToInterpreterBridge := QuickToInterpreterBridge rt0;
  QuickGenericJniStub := QuickGenericJniStub rt0;
  QuickResolutionStub := QuickResolutionStub rt0;
  QuickInstrumentationEntryPoint := QuickInstrumentationEntryPoint rt0;
  QuickInstrumentationExitPc := QuickInstrumentationExitPc rt0;
  JniDlsymLookupStub := JniDlsymLookupStub rt0;
  CodeSizeAt := CodeSizeAt rt0;
  FindOatMethodFor := FindOatMethodFor rt0;
  GetOatMethodQuickCodeFor := GetOatMethodQuickCodeFor rt0;
  GetClassFromTypeIndex := GetClassFromTypeIndex rt0;
  IsAssignableFrom := IsAssignableFrom rt0;
  ThreadSuspensionAllowable := ThreadSuspensionAllowable rt0;
  ImagePointerSize := ImagePointerSize rt0;
  PointerSize := PointerSize rt0;
  Interpret := Interpret rt0;
  QuickInvokeStub := fun _ r s =>
    Ok (write_result r 7, match exc with Some e => set_exception (Some e) s | None => s end);
  DeoptimizeWithDeoptimizationException := DeoptimizeWithDeoptimizationException rt0
|}.

(** [s_native] after hooking method 1. *)
Definition s_hooked : State := run_or s_native (EnableXposedHook rt0 1 99 s_native).

Definition invoke_or (d : State * option Z) (o : outcome (State * option Z)) : State * option Z :=
  match o with Ok p => p | Abort _ => d end.

(* ------------------------------------------------------------------ *)
(** ** Shapes used in the statements *)

(** [PushManagedStackFragment], and the return through
    [PopManagedStackFragment] of what ran in between. *)
Definition push_fragment (s : State) : State :=
  set_managed_stack (S (managed_stack s)) s.

Definition pop_fragment (s : State) (r : outcome (option Z * State))
    : outcome (State * option Z) :=
  match r with
  | Ok (result', s2) => Ok (set_managed_stack (managed_stack s) s2, result')
  | Abort msg => Abort msg
  end.

(** The descriptor after a successful hook and its backup. *)
Definition hooked_descriptor (rt : Runtime) (m : ArtMethod) (backup_id : nat) (additional : Z)
    : ArtMethod :=
  set_access_flags
    (Z.lor (Z.land (access_flags m) (Z.lnot kRemoveFlags)) kAccXposedHookedMethod)
    (set_code_item_offset 0
      (set_entry_point_from_quick_compiled_code (QuickProxyInvokeHandler rt)
        (set_entry_point_from_jni
           (JniHookInfo {| reflected_method := backup_id; additional_info := additional;
                           original_method := backup_id |}) m))).

Definition backup_descriptor (rt : Runtime) (m : ArtMethod) : ArtMethod :=
  set_access_flags (Z.lor (access_flags (CopyFrom rt m)) kAccXposedOriginalMethod)
    (CopyFrom rt m).

(** No descriptor carries both the hooked and the backup bit. *)
Definition hook_flags_exclusive (m : ArtMethod) : bool :=
  negb (IsXposedHookedMethod m && IsXposedOriginalMethod m).

Definition replace_frames (search replace : nat) (stack : list nat) : list nat :=
  map (fun f => if Nat.eqb f search then replace else f) stack.

Definition walk_events (tid n : nat) : list Event :=
  flat_map (fun t => [EvWalkStack t; EvInstrumentThreadStack t]) (seq tid n).

(** The descriptor of method 1 in [s_hooked]. *)
Definition m_hooked : ArtMethod :=
  hooked_descriptor rt0 (set_access_flags 257 m0) (fresh (dom (methods s_native))) 99.

(* ------------------------------------------------------------------ *)
(** ** [ArtMethod::ThrowInvocationTimeError] *)

(** Modelled from the spec: the accessors [IsAbstract],
    [IsDefaultConflicting] and [IsInvokable] of [art_method.h] (not under
    src/); the first two test one access-flag bit, a method is invokable
    when it is neither abstract nor default-conflicting. *)
Definition IsAbstract (m : ArtMethod) : bool := has_flag (access_flags m) kAccAbstract.
Definition IsDefaultConflicting (m : ArtMethod) : bool :=
  has_flag (access_flags m) kAccDefaultConflict.
Definition IsInvokable (m : ArtMethod) : bool :=
  negb (IsAbstract m) && negb (IsDefaultConflicting m).

(** The error thrown on the current thread. *)
Inductive InvocationTimeError :=
| IncompatibleClassChangeErrorForMethodConflict
| AbstractMethodError.

Definition ThrowInvocationTimeError (rt : Runtime) (m : ArtMethod)
    : outcome InvocationTimeError :=
  DCHECK rt (negb (IsInvokable m)) "Check failed: !IsInvokable()"
  ((* IsDefaultConflicting must be first since the actual method might or
      might not be abstract *)
   if IsDefaultConflicting m then Ok IncompatibleClassChangeErrorForMethodConflict
   else DCHECK rt (IsAbstract m) "Check failed: IsAbstract()" (Ok AbstractMethodError)).

(* ------------------------------------------------------------------ *)
(** ** [ArtMethod::NumArgRegisters] *)

(** The loop over [shorty[1..]]; [num_registers] is a [uint32_t]. *)
Fixpoint NumArgRegistersLoop (rest : string) (num_registers : Z) : Z :=
  match rest with
  | EmptyString => num_registers
  | String ch rest' =>
    let num_registers :=
      if Ascii.eqb ch "D"%char || Ascii.eqb ch "J"%char
      then (num_registers + 2) mod 2 ^ 32
      else (num_registers + 1) mod 2 ^ 32 in
    NumArgRegistersLoop rest' num_registers
  end.

Definition NumArgRegisters (shorty : string) : outcome Z :=
  CHECK (1 <=? String.length shorty)%nat "Check failed: 1U <= shorty.length()"
    (match shorty with
     | EmptyString => Ok 0
     | String _ rest => Ok (NumArgRegistersLoop rest 0)
     end).

(** The number of wide ('D' and 'J') characters of a string. *)
Fixpoint wide_count (s : string) : nat :=
  match s with
  | EmptyString => 0
  | String ch rest =>
    (if Ascii.eqb ch "D"%char || Ascii.eqb ch "J"%char then 1 else 0) + wide_count rest
  end.

(* ------------------------------------------------------------------ *)
(** ** [ArtMethod::EqualParameters] *)

(** [resolve] is [ClassLinker::ResolveType(type_idx, this)] ([None] for
    [nullptr]; the exception it leaves pending is not modelled); classes
    are object addresses.  The loop runs over [i < count], the lengths being
    equal by then. *)
Fixpoint EqualParametersLoop (resolve : Z -> option Z) (type_idxs params : list Z) : bool :=
  match type_idxs, params with
  | type_idx :: type_idxs', p :: params' =>
    match resolve type_idx with
    | None => false
    | Some type => if type =? p then EqualParametersLoop resolve type_idxs' params' else false
    end
  | _, _ => true
  end.

(** [proto_params] is the prototype's type list ([None] for [nullptr]),
    [params] the array of classes ([None] for a null handle). *)
Definition EqualParameters (resolve : Z -> option Z) (proto_params params : option (list Z))
    : bool :=
  let count := match proto_params with Some l => length l | None => 0%nat end in
  let param_len := match params with Some l => length l | None => 0%nat end in
  if negb (Nat.eqb param_len count) then false
  else EqualParametersLoop resolve (default [] proto_params) (default [] params).

(* ------------------------------------------------------------------ *)
(** ** [ArtMethod::HasAnyCompiledCode] *)

(** [jit_contains_method] is [GetJit()->GetCodeCache()->ContainsMethod]. *)
Definition HasAnyCompiledCode (rt : Runtime) (jit_contains_method : nat -> bool)
    (this : nat) (m : ArtMethod) : bool :=
  (HasJit rt && jit_contains_method this)
  || (negb (ignore_aot_code m) && negb (GetOatMethodQuickCodeFor rt this =? 0)).

(* ================================================================== *)
(** * Proofs *)

(** ** Bit-level helpers *)




(** ** Store helpers *)

Lemma fresh_not_in (ms : gmap nat ArtMethod) : ms !! fresh (dom ms) = None.
Proof. apply not_elem_of_dom. apply is_fresh. Qed.

Lemma fresh_neq (ms : gmap nat ArtMethod) (i : nat) (m : ArtMethod) :
  ms !! i = Some m -> i <> fresh (dom ms).
Proof. intros Hi ->. rewrite fresh_not_in in Hi. discriminate. Qed.


(** ** EnableXposedHook *)

Lemma EnableXposedHook_store rt this additional s m s' :
  methods s !! this = Some m ->
  IsXposedHookedMethod m = false -> IsXposedOriginalMethod m = false ->
  EnableXposedHook rt this additional s = Ok s' ->
  methods s' = <[this := hooked_descriptor rt m (fresh (dom (methods s))) additional]>
                 (<[fresh (dom (methods s)) := backup_descriptor rt m]> (methods s)).
Proof.
  intros Hm Hh Ho Hrun. unfold EnableXposedHook in Hrun.
  rewrite Hm, Hh, Ho in Hrun.
  destruct (ThreadListForEach _ _ _ _) as [sts' evs] eqn:E.
  injection Hrun as <-. reflexivity.
Qed.

Lemma EnableXposedHook_lookup_this rt this additional s m s' :
  methods s !! this = Some m ->
  IsXposedHookedMethod m = false -> IsXposedOriginalMethod m = false ->
  EnableXposedHook rt this additional s = Ok s' ->
  methods s' !! this = Some (hooked_descriptor rt m (fresh (dom (methods s))) additional).
Proof.
  intros Hm Hh Ho Hrun. rewrite (EnableXposedHook_store rt this additional s m s' Hm Hh Ho Hrun).
  apply lookup_insert_eq.
Qed.

Lemma EnableXposedHook_lookup_backup rt this additional s m s' :
  methods s !! this = Some m ->
  IsXposedHookedMethod m = false -> IsXposedOriginalMethod m = false ->
  EnableXposedHook rt this additional s = Ok s' ->
  methods s' !! fresh (dom (methods s)) = Some (backup_descriptor rt m).
Proof.
  intros Hm Hh Ho Hrun. rewrite (EnableXposedHook_store rt this additional s m s' Hm Hh Ho Hrun).
  rewrite lookup_insert_ne by exact (fresh_neq _ _ _ Hm).
  apply lookup_insert_eq.
Qed.



(** ** Hook rejection *)

Lemma has_flag_pow2 (x k : Z) : 0 <= k -> has_flag x (2 ^ k) = Z.testbit x k.
Proof.
  intros Hk. unfold has_flag. destruct (Z.testbit x k) eqn:Ex.
  - apply negb_true_iff, Z.eqb_neq. intros E.
    assert (E' : Z.testbit (Z.land x (2 ^ k)) k = Z.testbit 0 k) by (rewrite E; reflexivity).
    rewrite Z.land_spec, Ex, Z.pow2_bits_true, Z.bits_0 in E' by exact Hk. discriminate.
  - apply negb_false_iff, Z.eqb_eq. apply Z.bits_inj'. intros n Hn.
    rewrite Z.land_spec, Z.pow2_bits_eqb, Z.bits_0 by exact Hk.
    destruct (Z.eqb_spec k n) as [<-|]; [rewrite Ex; reflexivity | apply andb_false_r].
Qed.

Lemma IsXposedHookedMethod_bit (m : ArtMethod) :
  IsXposedHookedMethod m = Z.testbit (access_flags m) 28.
Proof. apply (has_flag_pow2 _ 28). lia. Qed.

Lemma IsXposedOriginalMethod_bit (m : ArtMethod) :
  IsXposedOriginalMethod m = Z.testbit (access_flags m) 26.
Proof. apply (has_flag_pow2 _ 26). lia. Qed.

Lemma hooked_descriptor_exclusive rt m b a :
  IsXposedOriginalMethod m = false -> hook_flags_exclusive (hooked_descriptor rt m b a) = true.
Proof.
  intros Ho. unfold hook_flags_exclusive.
  rewrite IsXposedOriginalMethod_bit in *. rewrite IsXposedHookedMethod_bit.
  cbn [hooked_descriptor set_access_flags set_code_item_offset
       set_entry_point_from_quick_compiled_code set_entry_point_from_jni access_flags].
  rewrite !Z.lor_spec, !Z.land_spec, !Z.lnot_spec by lia. rewrite Ho. simpl.
  rewrite andb_false_r. reflexivity.
Qed.

Lemma CopyFrom_access_flags rt m : access_flags (CopyFrom rt m) = access_flags m.
Proof.
  unfold CopyFrom.
  destruct (UseJitCompilation rt && _), (negb (IsNative m)); reflexivity.
Qed.

Lemma backup_descriptor_not_hooked rt m :
  IsXposedHookedMethod m = false -> IsXposedHookedMethod (backup_descriptor rt m) = false.
Proof.
  intros Hh. rewrite IsXposedHookedMethod_bit in *.
  cbn [backup_descriptor set_access_flags access_flags].
  rewrite CopyFrom_access_flags, Z.lor_spec, Hh. reflexivity.
Qed.

Lemma backup_descriptor_is_backup rt m :
  IsXposedOriginalMethod (backup_descriptor rt m) = true.
Proof.
  rewrite IsXposedOriginalMethod_bit.
  cbn [backup_descriptor set_access_flags access_flags].
  rewrite Z.lor_spec. apply orb_true_r.
Qed.

(** The hooked and backup bits stay exclusive across EnableXposedHook, for
    every descriptor of the store. *)
Lemma EnableXposedHook_preserves_exclusive rt this a s s' :
  (forall i mi, methods s !! i = Some mi -> hook_flags_exclusive mi = true) ->
  EnableXposedHook rt this a s = Ok s' ->
  forall i mi, methods s' !! i = Some mi -> hook_flags_exclusive mi = true.
Proof.
  intros Hinv Hrun. unfold EnableXposedHook in Hrun.
  destruct (methods s !! this) as [m|] eqn:Hm; [|discriminate].
  destruct (IsXposedHookedMethod m) eqn:Hh; [injection Hrun as <-; exact Hinv|].
  destruct (IsXposedOriginalMethod m) eqn:Ho; [injection Hrun as <-; exact Hinv|].
  assert (Hrun' : EnableXposedHook rt this a s = Ok s')
    by (unfold EnableXposedHook; rewrite Hm, Hh, Ho; exact Hrun).
  intros i mi. rewrite (EnableXposedHook_store rt this a s m s' Hm Hh Ho Hrun').
  rewrite lookup_insert. case_decide as Hi.
  - intros [= <-]. apply hooked_descriptor_exclusive. exact Ho.
  - rewrite lookup_insert. case_decide as Hj.
    + intros [= <-]. unfold hook_flags_exclusive.
      rewrite backup_descriptor_not_hooked by exact Hh. reflexivity.
    + apply Hinv.
Qed.

(** C2: hooking an already hooked descriptor changes nothing (its hook
    record and payload stay as they are); hooking a backup descriptor (which
    is never also hooked, see [EnableXposedHook_preserves_exclusive]) leaves
    an IllegalArgumentException pending and changes no descriptor, no stack
    and no other state. *)
Theorem EnableXposedHook_rejects (rt : Runtime) (this : nat) (additional : Z)
    (s : State) (m : ArtMethod) :
  methods s !! this = Some m ->
  (IsXposedHookedMethod m = true ->
     EnableXposedHook rt this additional s = Ok s /\
     methods s !! this = Some m) /\
  (hook_flags_exclusive m = true -> IsXposedOriginalMethod m = true ->
     exists s' msg,
       EnableXposedHook rt this additional s = Ok s' /\
       exception s' = Some (IllegalArgumentException msg) /\
       methods s' = methods s /\ stacks s' = stacks s /\
       long_jump_context s' = long_jump_context s /\
       managed_stack s' = managed_stack s /\ log s' = log s).
Proof.
  intros Hm. split.
  - intros Hh. unfold EnableXposedHook. rewrite Hm, Hh. split; reflexivity.
  - intros Hx Ho. unfold hook_flags_exclusive in Hx. rewrite Ho, andb_true_r in Hx.
    apply negb_true_iff in Hx.
    eexists _, _. unfold EnableXposedHook. rewrite Hm, Hx, Ho.
    split; [reflexivity|]. repeat split.
Qed.

Lemma EnableXposedHook_rejects_witness :
  (EnableXposedHook rt0 1 7 (run_or s0 (EnableXposedHook rt0 1 99 s0))
     = Ok (run_or s0 (EnableXposedHook rt0 1 99 s0)) /\
   methods (run_or s0 (EnableXposedHook rt0 1 99 s0)) !! 1%nat
     = Some (hooked_descriptor rt0 m0 2 99)) /\
  (exists s' msg,
     EnableXposedHook rt0 2 7 (run_or s0 (EnableXposedHook rt0 1 99 s0)) = Ok s' /\
     exception s' = Some (IllegalArgumentException msg) /\
     methods s' = methods (run_or s0 (EnableXposedHook rt0 1 99 s0)) /\
     stacks s' = stacks (run_or s0 (EnableXposedHook rt0 1 99 s0)) /\
     long_jump_context s' = long_jump_context (run_or s0 (EnableXposedHook rt0 1 99 s0)) /\
     managed_stack s' = managed_stack (run_or s0 (EnableXposedHook rt0 1 99 s0)) /\
     log s' = log (run_or s0 (EnableXposedHook rt0 1 99 s0))).
Proof.
  split.
  - apply (proj1 (EnableXposedHook_rejects rt0 1 7 (run_or s0 (EnableXposedHook rt0 1 99 s0))
                    (hooked_descriptor rt0 m0 2 99) ltac:(vm_compute; reflexivity))).
    vm_compute. reflexivity.
  - apply (proj2 (EnableXposedHook_rejects rt0 2 7 (run_or s0 (EnableXposedHook rt0 1 99 s0))
                    (backup_descriptor rt0 m0) ltac:(vm_compute; reflexivity)));
      vm_compute; reflexivity.
Defined.

(** ** Stack rewriting during the hook *)

Lemma ThreadListForEach_spec ms search replace tid sts :
  ms !! search ≫= GetXposedOriginalMethod = Some replace ->
  ThreadListForEach ms search tid sts =
    (map (replace_frames search replace) sts, walk_events tid (length sts)).
Proof.
  intros Hr. revert tid. induction sts as [|st rest IH]; intros tid; [reflexivity|].
  cbn [ThreadListForEach]. rewrite IH.
  unfold StackReplaceMethodAndInstallInstrumentation. rewrite Hr. reflexivity.
Qed.

(** C3: hooking rewrites, on every thread, each frame running the hooked
    method to run its backup and leaves every other frame alone; each
    thread's stack is walked and then instrumented again, thread after
    thread, all while every thread is suspended: after [SuspendAll] and
    before [ResumeAll]. *)
Theorem EnableXposedHook_replaces_frames (rt : Runtime) (this : nat) (additional : Z)
    (s s' : State) (m : ArtMethod) :
  methods s !! this = Some m ->
  IsXposedHookedMethod m = false ->
  IsXposedOriginalMethod m = false ->
  EnableXposedHook rt this additional s = Ok s' ->
  stacks s' = map (replace_frames this (fresh (dom (methods s)))) (stacks s) /\
  log s' = log s
           ++ [EvCreateRuntimeMethod (fresh (dom (methods s)));
               EvThreadSuspended; EvJitSuspend; EvGcCriticalEnter; EvSuspendAll;
               EvInvalidateCallers this]
           ++ (if HasJit rt then [EvMoveObsoleteMethod this (fresh (dom (methods s)))] else [])
           ++ [EvThreadListLock]
           ++ walk_events 0 (length (stacks s))
           ++ [EvThreadListUnlock; EvResumeAll; EvGcCriticalExit; EvJitResume;
               EvThreadRunnable].
Proof.
  intros Hm Hh Ho Hrun. unfold EnableXposedHook in Hrun. rewrite Hm, Hh, Ho in Hrun.
  rewrite (ThreadListForEach_spec _ this (fresh (dom (methods s)))) in Hrun.
  - injection Hrun as <-. cbn. split; [reflexivity|].
    rewrite <- !app_assoc. reflexivity.
  - cbn. rewrite lookup_insert_eq. reflexivity.
Qed.

Lemma EnableXposedHook_replaces_frames_witness :
  methods s0 !! 1%nat = Some m0 /\ IsXposedHookedMethod m0 = false /\
  IsXposedOriginalMethod m0 = false /\
  EnableXposedHook rt0 1 99 s0 = Ok (run_or s0 (EnableXposedHook rt0 1 99 s0)) /\
  stacks (run_or s0 (EnableXposedHook rt0 1 99 s0))
    = map (replace_frames 1 (fresh (dom (methods s0)))) (stacks s0) /\
  log (run_or s0 (EnableXposedHook rt0 1 99 s0)) = log s0
           ++ [EvCreateRuntimeMethod (fresh (dom (methods s0)));
               EvThreadSuspended; EvJitSuspend; EvGcCriticalEnter; EvSuspendAll;
               EvInvalidateCallers 1]
           ++ (if HasJit rt0 then [EvMoveObsoleteMethod 1 (fresh (dom (methods s0)))] else [])
           ++ [EvThreadListLock]
           ++ walk_events 0 (length (stacks s0))
           ++ [EvThreadListUnlock; EvResumeAll; EvGcCriticalExit; EvJitResume;
               EvThreadRunnable].
Proof.
  assert (H : EnableXposedHook rt0 1 99 s0 = Ok (run_or s0 (EnableXposedHook rt0 1 99 s0)))
    by (vm_compute; reflexivity).
  do 3 (split; [reflexivity|]). split; [exact H|].
  apply (EnableXposedHook_replaces_frames rt0 1 99 s0 _ m0);
    [reflexivity|reflexivity|reflexivity|exact H].
Defined.

(** ** Code-header lookup *)

(** C4 (as amended): in debug builds, for a non-zero pc, a header returned
    by the lookup contains pc, except for the fallback that returns the
    current entry point's header when no oat method is found (the path
    marked "Only for unit tests"); a mismatch on the JIT or AOT path is a
    DCHECK abort.  Release builds are outside this guarantee (see the two
    lemmas below). *)
Theorem GetOatQuickMethodHeader_debug_contains (rt : Runtime) (this : nat) (m : ArtMethod)
    (pc : Z) (h : OatQuickMethodHeader) :
  kIsDebugBuild rt = true ->
  pc <> 0 ->
  GetOatQuickMethodHeader rt this m pc = Ok (Some h) ->
  Contains h pc = true \/
  (FindOatMethodFor rt this = None /\
   h = FromEntryPoint rt (entry_point_from_quick_compiled_code m)).
Proof.
  intros Hd Hpc H.
  unfold GetOatQuickMethodHeader, JitHeaderStep, DCHECK, CHECK, obind in H.
  rewrite Hd in H. simpl in H.
  repeat (match type of H with
          | context [if ?b then _ else _] => destruct b eqn:?
          | context [match ?x with Some _ => _ | None => _ end] => destruct x eqn:?
          end; simpl in H); try discriminate.
  all: injection H as <-.
  all: first [right; split; reflexivity | left].
  all: repeat match goal with
              | E : negb _ = false |- _ => apply negb_false_iff in E
              | E : negb _ = true |- _ => apply negb_true_iff in E
              end; try assumption.
  all: exfalso; match goal with E : (_ =? 0) = true |- _ => apply Z.eqb_eq in E; congruence end.
Qed.

Lemma GetOatQuickMethodHeader_debug_contains_witness :
  kIsDebugBuild (rt_with_oat true 131072) = true /\ 131080 <> 0 /\
  GetOatQuickMethodHeader (rt_with_oat true 131072) 1 m0 131080
    = Ok (Some (FromEntryPoint (rt_with_oat true 131072) 131072)) /\
  (Contains (FromEntryPoint (rt_with_oat true 131072) 131072) 131080 = true \/
   (FindOatMethodFor (rt_with_oat true 131072) 1 = None /\
    FromEntryPoint (rt_with_oat true 131072) 131072
      = FromEntryPoint (rt_with_oat true 131072) (entry_point_from_quick_compiled_code m0))).
Proof.
  assert (H : GetOatQuickMethodHeader (rt_with_oat true 131072) 1 m0 131080
              = Ok (Some (FromEntryPoint (rt_with_oat true 131072) 131072)))
    by (vm_compute; reflexivity).
  split; [reflexivity|]. split; [lia|]. split; [exact H|].
  apply (GetOatQuickMethodHeader_debug_contains (rt_with_oat true 131072) 1 m0 131080);
    [reflexivity|lia|exact H].
Defined.

(** C4 counterexample: with no oat method found, a pc outside the current
    code gets the current entry point's header (the path marked "Only for
    unit tests"), in debug builds as well. *)
Lemma GetOatQuickMethodHeader_fallback_unchecked :
  ~ (forall (rt : Runtime) (this : nat) (m : ArtMethod) (pc : Z) (h : OatQuickMethodHeader),
       pc <> 0 -> GetOatQuickMethodHeader rt this m pc = Ok (Some h) -> Contains h pc = true).
Proof.
  intros Hall.
  assert (E : Contains (FromEntryPoint rt0 65536) 1000000 = true).
  { apply (Hall rt0 1%nat m0 1000000); [lia | vm_compute; reflexivity]. }
  vm_compute in E. discriminate.
Qed.

(** Release builds compile the DCHECK out: the AOT header is returned for
    a pc it does not contain. *)
Lemma GetOatQuickMethodHeader_release_unchecked :
  GetOatQuickMethodHeader (rt_with_oat false 131072) 1 m0 1000000
    = Ok (Some (FromEntryPoint (rt_with_oat false 131072) 131072)) /\
  Contains (FromEntryPoint (rt_with_oat false 131072) 131072) 1000000 = false /\
  GetOatQuickMethodHeader (rt_with_oat true 131072) 1 m0 1000000
    = Abort "Check failed: method_header->Contains(pc)".
Proof. vm_compute. repeat split. Qed.

(** ** Catch-block lookup *)

Lemma FindCatchBlockLoop_no_exception rt exception_type hs s :
  exception s = None -> exception (snd (FindCatchBlockLoop rt exception_type hs s)) = None.
Proof.
  revert s. induction hs as [|[idx addr] rest IH]; intros s Hs; [exact Hs|].
  cbn [FindCatchBlockLoop].
  destruct (idx =? kDexNoIndex16); [exact Hs|].
  destruct (GetClassFromTypeIndex rt idx) as [c|].
  - destruct (IsAssignableFrom rt c exception_type); [exact Hs|]. apply IH, Hs.
  - apply IH. reflexivity.
Qed.

(** C5: in table order, a catch-all handler matches at once and stops the
    scan; a typed handler whose class resolves matches exactly when that
    class is assignable from the thrown type; a handler whose class does not
    resolve has its pending error cleared, a warning logged (and the long
    jump context dropped), and the scan goes on with the next handler.  The
    exception pending when the routine returns is the one pending on entry:
    no resolution error leaks out. *)
Theorem FindCatchBlock_scan (rt : Runtime) (exception_type : Z) :
  (forall addr rest s,
     FindCatchBlockLoop rt exception_type ((kDexNoIndex16, addr) :: rest) s = (addr, s)) /\
  (forall idx addr rest s c,
     idx <> kDexNoIndex16 -> GetClassFromTypeIndex rt idx = Some c ->
     FindCatchBlockLoop rt exception_type ((idx, addr) :: rest) s =
       if IsAssignableFrom rt c exception_type then (addr, s)
       else FindCatchBlockLoop rt exception_type rest s) /\
  (forall idx addr rest s,
     idx <> kDexNoIndex16 -> GetClassFromTypeIndex rt idx = None ->
     FindCatchBlockLoop rt exception_type ((idx, addr) :: rest) s =
       FindCatchBlockLoop rt exception_type rest
         (emit [EvLogWarning idx] (set_long_jump_context false (set_exception None s)))) /\
  (forall m dex_pc has_no_move s found has_no_move' s',
     FindCatchBlock rt m exception_type dex_pc has_no_move s = (found, has_no_move', s') ->
     exception s' = exception s).
Proof.
  split; [intros; cbn [FindCatchBlockLoop]; rewrite Z.eqb_refl; reflexivity|].
  split.
  { intros idx addr rest s c Hidx Hc. cbn [FindCatchBlockLoop].
    rewrite (proj2 (Z.eqb_neq _ _) Hidx), Hc. reflexivity. }
  split.
  { intros idx addr rest s Hidx Hc. cbn [FindCatchBlockLoop].
    rewrite (proj2 (Z.eqb_neq _ _) Hidx), Hc. reflexivity. }
  intros m dex_pc has_no_move s found has_no_move' s' H.
  unfold FindCatchBlock in H.
  destruct (FindCatchBlockLoop rt exception_type _ (set_exception None s)) as [f s1] eqn:E.
  injection H as _ _ <-.
  destruct (exception s) as [e|] eqn:Hs; [reflexivity|].
  change s1 with (snd (f, s1)). rewrite <- E. apply FindCatchBlockLoop_no_exception. reflexivity.
Qed.

Lemma FindCatchBlock_scan_witness :
  FindCatchBlockLoop rt0 3 [(7, 20); (3, 30); (65535, 40)] s0
    = FindCatchBlockLoop rt0 3 [(3, 30); (65535, 40)]
        (emit [EvLogWarning 7] (set_long_jump_context false (set_exception None s0))) /\
  FindCatchBlockLoop rt0 3 [(3, 30); (65535, 40)]
        (emit [EvLogWarning 7] (set_long_jump_context false (set_exception None s0)))
    = (30, emit [EvLogWarning 7] (set_long_jump_context false (set_exception None s0))) /\
  FindCatchBlockLoop rt0 9 [(65535, 40)] s0 = (40, s0) /\
  exception (snd (FindCatchBlock rt0 m0 3 5 false (set_exception (Some (ExcObject 77)) s0)))
    = Some (ExcObject 77).
Proof.
  destruct (FindCatchBlock_scan rt0 3) as [_ [Htyped [Hunres Hexc]]].
  split; [apply Hunres; [discriminate | reflexivity]|].
  split; [rewrite (Htyped 3 30 [(65535, 40)] _ 3); [reflexivity | discriminate | reflexivity]|].
  split; [apply (proj1 (FindCatchBlock_scan rt0 9))|].
  destruct (FindCatchBlock rt0 m0 3 5 false (set_exception (Some (ExcObject 77)) s0))
    as [[f h] s'] eqn:E.
  exact (Hexc m0 5 false _ f h s' E).
Defined.

(** C9: [*has_no_move_exception] is written only when a handler is found,
    with whether the handler's first instruction is not MOVE_EXCEPTION;
    when the result is [kDexNoIndex] it keeps the caller's value. *)
Theorem FindCatchBlock_out_param (rt : Runtime) (m : ArtMethod) (exception_type dex_pc : Z)
    (has_no_move : bool) (s : State) (found : Z) (has_no_move' : bool) (s' : State) :
  FindCatchBlock rt m exception_type dex_pc has_no_move s = (found, has_no_move', s') ->
  (found = kDexNoIndex -> has_no_move' = has_no_move) /\
  (found <> kDexNoIndex ->
     has_no_move' = negb (OpcodeAt (code_item m) found =? MOVE_EXCEPTION)).
Proof.
  intros H. unfold FindCatchBlock in H.
  destruct (FindCatchBlockLoop rt exception_type _ (set_exception None s)) as [f s1] eqn:E.
  injection H as <- <- _.
  split; intros Hf.
  - subst f. reflexivity.
  - rewrite (proj2 (Z.eqb_neq _ _) Hf). reflexivity.
Qed.

Lemma FindCatchBlock_out_param_witness :
  FindCatchBlock rt0 m0 9 5 false s0
    = (40, true, snd (FindCatchBlock rt0 m0 9 5 false s0)) /\
  (40 <> kDexNoIndex -> true = negb (OpcodeAt (code_item m0) 40 =? MOVE_EXCEPTION)) /\
  FindCatchBlock rt0 m0 9 50 false s0
    = (kDexNoIndex, false, snd (FindCatchBlock rt0 m0 9 50 false s0)) /\
  (kDexNoIndex = kDexNoIndex -> false = false).
Proof.
  assert (H1 : FindCatchBlock rt0 m0 9 5 false s0
               = (40, true, snd (FindCatchBlock rt0 m0 9 5 false s0)))
    by (vm_compute; reflexivity).
  assert (H2 : FindCatchBlock rt0 m0 9 50 false s0
               = (kDexNoIndex, false, snd (FindCatchBlock rt0 m0 9 50 false s0)))
    by (vm_compute; reflexivity).
  split; [exact H1|]. split; [exact (proj2 (FindCatchBlock_out_param _ _ _ _ _ _ _ _ _ H1))|].
  split; [exact H2|]. exact (proj1 (FindCatchBlock_out_param _ _ _ _ _ _ _ _ _ H2)).
Defined.

(** ** Invoke *)

(** The debug-build checks of Invoke pass under its preconditions. *)
Lemma Invoke_debug_checks (rt : Runtime) (m : ArtMethod) (runnable : bool) (shorty_arg : string) :
  (kIsDebugBuild rt = true ->
     ThreadSuspensionAllowable rt = true /\ runnable = true /\
     String.eqb (shorty m) shorty_arg = true /\ ImagePointerSize rt = PointerSize rt) ->
  (negb (kIsDebugBuild rt) || ThreadSuspensionAllowable rt) = true /\
  (negb (kIsDebugBuild rt) || runnable) = true /\
  (negb (kIsDebugBuild rt) || String.eqb (shorty m) shorty_arg) = true /\
  (kIsDebugBuild rt && negb (ImagePointerSize rt =? PointerSize rt)) = false.
Proof.
  intros Hdbg. destruct (kIsDebugBuild rt); [|repeat split].
  destruct (Hdbg eq_refl) as (-> & -> & -> & ->). rewrite Z.eqb_refl. repeat split.
Qed.

(** C6: under Invoke's preconditions (stack headroom; in debug builds a
    thread that may be suspended, is runnable and passes a matching shorty,
    and an image pointer size equal to the runtime's pointer size), with
    the runtime started, no forced interpretation and a null compiled-code
    entry point, Invoke writes 0 through a non-null [result] and returns
    normally: no exception is raised, the managed-stack fragment is popped
    again and only an info line is logged. *)
Theorem Invoke_null_entry_point (rt : Runtime) (this : nat) (m : ArtMethod)
    (frame_address stack_end : Z) (runnable : bool) (shorty_arg : string)
    (result : option Z) (s : State) :
  stack_end <= frame_address ->
  (kIsDebugBuild rt = true ->
     ThreadSuspensionAllowable rt = true /\ runnable = true /\
     String.eqb (shorty m) shorty_arg = true /\ ImagePointerSize rt = PointerSize rt) ->
  IsStarted rt = true ->
  IsForcedInterpreterNeededForCalling rt this = false ->
  entry_point_from_quick_compiled_code m = 0 ->
  exists s',
    Invoke rt this m frame_address stack_end runnable shorty_arg result s
      = Ok (s', write_result result 0) /\
    (forall v, result = Some v -> write_result result 0 = Some 0) /\
    exception s' = exception s /\ methods s' = methods s /\ stacks s' = stacks s /\
    managed_stack s' = managed_stack s /\ log s' = log s ++ [EvLogInfo this].
Proof.
  intros Hst Hdbg Hstarted Hforced Hep.
  destruct (Invoke_debug_checks rt m runnable shorty_arg Hdbg) as (Hk1 & Hk2 & Hk3 & Hk4).
  eexists. split.
  - unfold Invoke, CHECK, DCHECK.
    rewrite (proj2 (Z.ltb_ge _ _) Hst), Hk1, Hk2, Hk3, Hstarted, Hforced, Hk4, Hep.
    reflexivity.
  - split; [intros v ->; reflexivity|]. repeat split.
Qed.

Lemma Invoke_null_entry_point_witness :
  exists s',
    Invoke rt0 1 (set_entry_point_from_quick_compiled_code 0 m0) 8192 4096 true "V"
      (Some 5) s0 = Ok (s', write_result (Some 5) 0) /\
    (forall v, Some 5 = Some v -> write_result (Some 5) 0 = Some 0) /\
    exception s' = exception s0 /\ methods s' = methods s0 /\ stacks s' = stacks s0 /\
    managed_stack s' = managed_stack s0 /\ log s' = log s0 ++ [EvLogInfo 1].
Proof.
  apply (Invoke_null_entry_point rt0 1 (set_entry_point_from_quick_compiled_code 0 m0)
           8192 4096 true "V" (Some 5) s0).
  - lia.
  - intros _. repeat split; reflexivity.
  - reflexivity.
  - reflexivity.
  - reflexivity.
Defined.

(** C7: when the frame address is below the thread's stack end, Invoke
    raises StackOverflowError and returns at once: [result] is not written,
    no managed-stack fragment is pushed, nothing else changes. *)
Theorem Invoke_stack_overflow (rt : Runtime) (this : nat) (m : ArtMethod)
    (frame_address stack_end : Z) (runnable : bool) (shorty_arg : string)
    (result : option Z) (s : State) :
  frame_address < stack_end ->
  exists s',
    Invoke rt this m frame_address stack_end runnable shorty_arg result s = Ok (s', result) /\
    exception s' = Some StackOverflowError /\
    methods s' = methods s /\ stacks s' = stacks s /\
    long_jump_context s' = long_jump_context s /\
    managed_stack s' = managed_stack s /\ log s' = log s.
Proof.
  intros Hlt. eexists. split.
  - unfold Invoke. rewrite (proj2 (Z.ltb_lt _ _) Hlt). reflexivity.
  - repeat split.
Qed.

Lemma Invoke_stack_overflow_witness :
  exists s',
    Invoke rt0 1 m0 4000 4096 true "V" (Some 5) s0 = Ok (s', Some 5) /\
    exception s' = Some StackOverflowError /\
    methods s' = methods s0 /\ stacks s' = stacks s0 /\
    long_jump_context s' = long_jump_context s0 /\
    managed_stack s' = managed_stack s0 /\ log s' = log s0.
Proof. apply (Invoke_stack_overflow rt0 1 m0 4000 4096 true "V" (Some 5) s0). lia. Defined.

(** ** InvalidateCompiledCode *)




(** ** Native registration *)

Lemma IsFastNative_bit (m : ArtMethod) : IsFastNative m = Z.testbit (access_flags m) 19.
Proof. apply (has_flag_pow2 _ 19). lia. Qed.

Lemma registered_flags p f m :
  Z.testbit (access_flags (registered p f m)) 28 = Z.testbit (access_flags m) 28 /\
  Z.testbit (access_flags (registered p f m)) 26 = Z.testbit (access_flags m) 26 /\
  Z.testbit (access_flags (registered p f m)) 19 = Z.testbit (access_flags m) 19 || f.
Proof.
  destruct f; cbn [registered set_entry_point_from_jni set_access_flags access_flags].
  - rewrite !Z.lor_spec. cbv [kAccFastNative Z.testbit]. cbn.
    rewrite !orb_false_r, orb_true_r. repeat split.
  - rewrite orb_false_r. repeat split.
Qed.

Lemma registered_hooked p f m :
  IsXposedHookedMethod (registered p f m) = IsXposedHookedMethod m.
Proof. rewrite !IsXposedHookedMethod_bit. apply registered_flags. Qed.

Lemma registered_original p f m :
  IsXposedOriginalMethod (registered p f m) = IsXposedOriginalMethod m.
Proof. rewrite !IsXposedOriginalMethod_bit. apply registered_flags. Qed.

Lemma registered_fast p f m :
  IsFastNative (registered p f m) = IsFastNative m || f.
Proof. rewrite !IsFastNative_bit. apply registered_flags. Qed.

Lemma RegisterNative_target fuel j p f s s' :
  RegisterNative fuel j p f s = Ok s' ->
  exists t mt, methods s !! t = Some mt /\ IsXposedHookedMethod mt = false /\
    IsFastNative mt = false /\ s' = update_method t (registered p f mt) s.
Proof.
  revert j. induction fuel as [|fuel IH]; intros j H; [discriminate|].
  cbn [RegisterNative] in H. destruct (methods s !! j) as [m|] eqn:Hm; [|discriminate].
  destruct (IsXposedHookedMethod m) eqn:Hh.
  - destruct (GetXposedOriginalMethod m) as [b|]; [|discriminate]. exact (IH b H).
  - unfold CHECK in H.
    destruct (IsNative m); [|discriminate].
    destruct (IsFastNative m) eqn:Hf; [discriminate|].
    destruct (p =? 0); [discriminate|].
    injection H as <-. exists j, m. repeat split; assumption.
Qed.

Lemma UnregisterNative_target rt fuel j s s' :
  UnregisterNative rt fuel j s = Ok s' ->
  exists t mt, methods s !! t = Some mt /\ IsXposedHookedMethod mt = false /\
    IsFastNative mt = false /\
    s' = update_method t (registered (JniDlsymLookupStub rt) false mt) s.
Proof.
  revert j. induction fuel as [|fuel IH]; intros j H; [discriminate|].
  cbn [UnregisterNative] in H. destruct (methods s !! j) as [m|] eqn:Hm; [|discriminate].
  destruct (IsXposedHookedMethod m) eqn:Hh.
  - destruct (GetXposedOriginalMethod m) as [b|]; [|discriminate]. exact (IH b H).
  - unfold CHECK in H. destruct (IsNative m && negb (IsFastNative m)); [|discriminate].
    exact (RegisterNative_target _ _ _ _ _ _ H).
Qed.

Lemma registered_wf (ms : gmap nat ArtMethod) t mt p f :
  ms !! t = Some mt -> IsXposedHookedMethod mt = false ->
  hooks_wf ms -> hooks_wf (<[t := registered p f mt]> ms).
Proof.
  intros Ht Hth Hwf i mi Hi Hhi. rewrite lookup_insert in Hi. case_decide as Eti.
  - subst i. injection Hi as <-. rewrite registered_hooked, Hth in Hhi. discriminate.
  - destruct (Hwf i mi Hi Hhi) as (b & mb & Hb & Hmb & Hbh & Hbo).
    exists b. rewrite lookup_insert. case_decide as Etb.
    + subst b. rewrite Ht in Hmb. injection Hmb as <-.
      eexists. split; [exact Hb|]. split; [reflexivity|].
      rewrite registered_hooked, registered_original. split; assumption.
    + exists mb. repeat split; assumption.
Qed.

(** A successful (un)registration keeps the store well formed and keeps
    [id] tainted. *)
Lemma registered_preserves (ms : gmap nat ArtMethod) t mt p f id :
  ms !! t = Some mt -> IsXposedHookedMethod mt = false -> IsFastNative mt = false ->
  hooks_wf ms -> fast_tainted ms id ->
  hooks_wf (<[t := registered p f mt]> ms) /\ fast_tainted (<[t := registered p f mt]> ms) id.
Proof.
  intros Ht Hth Htf Hwf (m & Hm & Htaint). split.
  - exact (registered_wf ms t mt p f Ht Hth Hwf).
  - exists m. rewrite lookup_insert. case_decide as Eti.
    + subst id. rewrite Ht in Hm. injection Hm as <-.
      destruct Htaint as [[_ Hf] | [Hh _]]; congruence.
    + split; [exact Hm|].
      destruct Htaint as [Hl | [Hh (b & mb & Hb & Hmb & Hfb)]]; [left; exact Hl|].
      right. split; [exact Hh|]. exists b, mb. split; [exact Hb|].
      rewrite lookup_insert. case_decide as Etb; [|split; assumption].
      subst b. rewrite Ht in Hmb. injection Hmb as <-. congruence.
Qed.

Lemma InvalidateCompiledCode_target rt j s s' :
  InvalidateCompiledCode rt j s = Ok s' ->
  exists m m', methods s !! j = Some m /\ methods s' = <[j := m']> (methods s) /\
    access_flags m' = access_flags m /\ entry_point_from_jni m' = entry_point_from_jni m.
Proof.
  unfold InvalidateCompiledCode. destruct (methods s !! j) as [m|] eqn:Hm; [|discriminate].
  unfold CHECK. destruct (negb (IsXposedHookedMethod m)); [|discriminate].
  assert (Hm1 : access_flags (if ignore_aot_code m then m else set_ignore_aot_code m)
                = access_flags m /\
                entry_point_from_jni (if ignore_aot_code m then m else set_ignore_aot_code m)
                = entry_point_from_jni m)
    by (destruct (ignore_aot_code m); split; reflexivity).
  destruct (UseJitCompilation rt); intros H; injection H as <-; eexists _, _;
    (split; [reflexivity|]).
  - split; [reflexivity|]. exact Hm1.
  - split; [cbn; apply insert_insert_eq|]. exact Hm1.
Qed.

(** Replacing a descriptor by one with the same flags and the same
    [entry_point_from_jni] keeps the store well formed and [id] tainted. *)
Lemma same_hook_fields_preserves (ms : gmap nat ArtMethod) j m m' id :
  ms !! j = Some m ->
  access_flags m' = access_flags m -> entry_point_from_jni m' = entry_point_from_jni m ->
  hooks_wf ms -> fast_tainted ms id ->
  hooks_wf (<[j := m']> ms) /\ fast_tainted (<[j := m']> ms) id.
Proof.
  intros Hj Hf Hjni Hwf Ht.
  assert (Eh : IsXposedHookedMethod m' = IsXposedHookedMethod m)
    by (unfold IsXposedHookedMethod; rewrite Hf; reflexivity).
  assert (Eo : IsXposedOriginalMethod m' = IsXposedOriginalMethod m)
    by (unfold IsXposedOriginalMethod; rewrite Hf; reflexivity).
  assert (Ef : IsFastNative m' = IsFastNative m)
    by (unfold IsFastNative; rewrite Hf; reflexivity).
  assert (Eg : GetXposedOriginalMethod m' = GetXposedOriginalMethod m)
    by (unfold GetXposedOriginalMethod; rewrite Hjni; reflexivity).
  split.
  - intros i mi Hi Hhi. rewrite lookup_insert in Hi. case_decide as Eji.
    + subst i. injection Hi as <-. rewrite Eh in Hhi.
      destruct (Hwf j m Hj Hhi) as (b & mb & Hb & Hmb & Hbh & Hbo).
      exists b. rewrite lookup_insert. case_decide as Ejb.
      * subst b. rewrite Hj in Hmb. injection Hmb as <-.
        eexists. repeat split; [rewrite Eg; exact Hb | rewrite Eh; exact Hbh | rewrite Eo; exact Hbo].
      * exists mb. repeat split; [rewrite Eg|..]; assumption.
    + destruct (Hwf i mi Hi Hhi) as (b & mb & Hb & Hmb & Hbh & Hbo).
      exists b. rewrite lookup_insert. case_decide as Ejb.
      * subst b. rewrite Hj in Hmb. injection Hmb as <-.
        eexists. repeat split; [exact Hb | rewrite Eh; exact Hbh | rewrite Eo; exact Hbo].
      * exists mb. repeat split; assumption.
  - destruct Ht as (mi & Hmi & Htaint).
    unfold fast_tainted. rewrite lookup_insert. case_decide as Eji.
    + subst id. rewrite Hj in Hmi. injection Hmi as <-. exists m'. split; [reflexivity|].
      rewrite Eh, Ef, Eg. destruct Htaint as [Hl | [Hh (b & mb & Hb & Hmb & Hfb)]];
        [left; exact Hl|right; split; [exact Hh|]].
      exists b. rewrite lookup_insert. case_decide as Ejb.
      * subst b. rewrite Hj in Hmb. injection Hmb as <-. eexists. repeat split; [exact Hb|].
        rewrite Ef. exact Hfb.
      * exists mb. repeat split; assumption.
    + exists mi. split; [exact Hmi|].
      destruct Htaint as [Hl | [Hh (b & mb & Hb & Hmb & Hfb)]];
        [left; exact Hl|right; split; [exact Hh|]].
      exists b. rewrite lookup_insert. case_decide as Ejb.
      * subst b. rewrite Hj in Hmb. injection Hmb as <-. eexists. repeat split; [exact Hb|].
        rewrite Ef. exact Hfb.
      * exists mb. repeat split; assumption.
Qed.

Lemma hooked_descriptor_hooked rt m b a :
  IsXposedHookedMethod (hooked_descriptor rt m b a) = true.
Proof.
  rewrite IsXposedHookedMethod_bit.
  cbn [hooked_descriptor set_access_flags set_code_item_offset
       set_entry_point_from_quick_compiled_code set_entry_point_from_jni access_flags].
  rewrite Z.lor_spec. apply orb_true_r.
Qed.

Lemma backup_descriptor_fast rt m : IsFastNative (backup_descriptor rt m) = IsFastNative m.
Proof.
  rewrite !IsFastNative_bit. cbn [backup_descriptor set_access_flags access_flags].
  rewrite CopyFrom_access_flags, Z.lor_spec. apply orb_false_r.
Qed.

Lemma EnableXposedHook_preserves rt j a s s' id :
  hooks_wf (methods s) -> fast_tainted (methods s) id ->
  EnableXposedHook rt j a s = Ok s' ->
  hooks_wf (methods s') /\ fast_tainted (methods s') id.
Proof.
  intros Hwf Ht Hrun.
  destruct (methods s !! j) as [mj|] eqn:Hj;
    [|unfold EnableXposedHook in Hrun; rewrite Hj in Hrun; discriminate].
  destruct (IsXposedHookedMethod mj) eqn:Hh.
  { unfold EnableXposedHook in Hrun. rewrite Hj, Hh in Hrun. injection Hrun as <-. split; assumption. }
  destruct (IsXposedOriginalMethod mj) eqn:Ho.
  { unfold EnableXposedHook in Hrun. rewrite Hj, Hh, Ho in Hrun. injection Hrun as <-.
    split; assumption. }
  rewrite (EnableXposedHook_store rt j a s mj s' Hj Hh Ho Hrun).
  set (b' := fresh (dom (methods s))).
  assert (Hb' : methods s !! b' = None) by apply fresh_not_in.
  assert (Hjb' : j <> b') by exact (fresh_neq _ _ _ Hj).
  (* a backup named by a hook record is neither j nor b' *)
  assert (Hold : forall b mb, methods s !! b = Some mb -> IsXposedOriginalMethod mb = true ->
                  b <> j /\ b <> b').
  { intros b mb Hb Hob. split; intros ->; congruence. }
  split.
  - intros i mi Hi Hhi. rewrite lookup_insert in Hi. case_decide as Eji.
    + subst i. injection Hi as <-. exists b', (backup_descriptor rt mj).
      split; [reflexivity|]. split.
      * rewrite lookup_insert_ne by exact Hjb'. apply lookup_insert_eq.
      * split; [apply backup_descriptor_not_hooked, Hh | apply backup_descriptor_is_backup].
    + rewrite lookup_insert in Hi. case_decide as Eb'i.
      * subst i. injection Hi as <-. rewrite backup_descriptor_not_hooked in Hhi by exact Hh.
        discriminate.
      * destruct (Hwf i mi Hi Hhi) as (b & mb & Hb & Hmb & Hbh & Hbo).
        destruct (Hold b mb Hmb Hbo) as [Hbj Hbb'].
        exists b, mb. split; [exact Hb|]. split; [|split; assumption].
        rewrite lookup_insert_ne by congruence. rewrite lookup_insert_ne by congruence.
        exact Hmb.
  - destruct Ht as (mi & Hmi & Htaint). unfold fast_tainted.
    rewrite lookup_insert. case_decide as Eji.
    + subst id. rewrite Hj in Hmi. injection Hmi as <-.
      eexists. split; [reflexivity|]. right. split; [apply hooked_descriptor_hooked|].
      exists b', (backup_descriptor rt mj). split; [reflexivity|]. split.
      * rewrite lookup_insert_ne by exact Hjb'. apply lookup_insert_eq.
      * rewrite backup_descriptor_fast.
        destruct Htaint as [[_ Hf] | [Hh' _]]; [exact Hf | congruence].
    + assert (Hib' : id <> b') by (intros ->; congruence).
      rewrite lookup_insert_ne by congruence.
      exists mi. split; [exact Hmi|].
      destruct Htaint as [Hl | [Hhi (b & mb & Hb & Hmb & Hfb)]];
        [left; exact Hl|right; split; [exact Hhi|]].
      destruct (Hwf id mi Hmi Hhi) as (b2 & mb2 & Hb2 & Hmb2 & _ & Hbo).
      rewrite Hb in Hb2. injection Hb2 as <-. rewrite Hmb in Hmb2. injection Hmb2 as <-.
      destruct (Hold b mb Hmb Hbo) as [Hbj Hbb'].
      exists b, mb. split; [exact Hb|]. split; [|exact Hfb].
      rewrite lookup_insert_ne by congruence. rewrite lookup_insert_ne by congruence.
      exact Hmb.
Qed.

Lemma step_preserves rt fuel op s s' id :
  hooks_wf (methods s) -> fast_tainted (methods s) id ->
  step rt fuel op s = Ok s' ->
  hooks_wf (methods s') /\ fast_tainted (methods s') id.
Proof.
  intros Hwf Ht. destruct op as [j p f | j | j | j a]; cbn [step]; intros H.
  - destruct (RegisterNative_target _ _ _ _ _ _ H) as (t & mt & Ht1 & Ht2 & Ht3 & ->).
    exact (registered_preserves _ t mt p f id Ht1 Ht2 Ht3 Hwf Ht).
  - destruct (UnregisterNative_target _ _ _ _ _ H) as (t & mt & Ht1 & Ht2 & Ht3 & ->).
    exact (registered_preserves _ t mt _ false id Ht1 Ht2 Ht3 Hwf Ht).
  - destruct (InvalidateCompiledCode_target _ _ _ _ H) as (m & m' & Hm & -> & Hf & Hjni).
    exact (same_hook_fields_preserves _ j m m' id Hm Hf Hjni Hwf Ht).
  - exact (EnableXposedHook_preserves _ _ _ _ _ _ Hwf Ht H).
Qed.

Lemma run_preserves rt fuel ops s s' id :
  hooks_wf (methods s) -> fast_tainted (methods s) id ->
  run rt fuel ops s = Ok s' ->
  hooks_wf (methods s') /\ fast_tainted (methods s') id.
Proof.
  revert s. induction ops as [|op rest IH]; intros s Hwf Ht H.
  - injection H as <-. split; assumption.
  - cbn [run obind] in H. destruct (step rt fuel op s) as [s1|] eqn:E; [|discriminate].
    destruct (step_preserves _ _ _ _ _ id Hwf Ht E) as [Hwf1 Ht1].
    exact (IH s1 Hwf1 Ht1 H).
Qed.

Lemma RegisterNative_fast_taints fuel id p s s1 :
  hooks_wf (methods s) ->
  RegisterNative fuel id p true s = Ok s1 ->
  hooks_wf (methods s1) /\ fast_tainted (methods s1) id.
Proof.
  intros Hwf H. destruct fuel as [|fuel]; [discriminate|].
  cbn [RegisterNative] in H. destruct (methods s !! id) as [m|] eqn:Hm; [|discriminate].
  destruct (IsXposedHookedMethod m) eqn:Hh.
  - destruct (Hwf id m Hm Hh) as (b & mb & Hb & Hmb & Hbh & Hbo).
    rewrite Hb in H. destruct fuel as [|fuel]; [discriminate|].
    cbn [RegisterNative] in H. rewrite Hmb, Hbh in H. unfold CHECK in H.
    destruct (IsNative mb); [|discriminate].
    destruct (IsFastNative mb); [discriminate|].
    destruct (p =? 0); [discriminate|].
    injection H as <-. cbn [update_method set_methods methods]. split.
    + exact (registered_wf _ b mb p true Hmb Hbh Hwf).
    + exists m. assert (Hib : id <> b) by (intros ->; congruence).
      rewrite lookup_insert_ne by congruence. split; [exact Hm|].
      right. split; [exact Hh|]. exists b, (registered p true mb).
      split; [exact Hb|]. split; [apply lookup_insert_eq|].
      rewrite registered_fast. apply orb_true_r.
  - unfold CHECK in H. destruct (IsNative m); [|discriminate].
    destruct (IsFastNative m); [discriminate|].
    destruct (p =? 0); [discriminate|].
    injection H as <-. cbn [update_method set_methods methods]. split.
    + exact (registered_wf _ id m p true Hm Hh Hwf).
    + exists (registered p true m). split; [apply lookup_insert_eq|].
      left. rewrite registered_hooked, registered_fast. split; [exact Hh | apply orb_true_r].
Qed.

Lemma tainted_UnregisterNative_aborts rt fuel id s :
  (2 <= fuel)%nat ->
  hooks_wf (methods s) -> fast_tainted (methods s) id ->
  UnregisterNative rt fuel id s = Abort "Check failed: IsNative() && !IsFastNative()".
Proof.
  intros Hfuel Hwf (m & Hm & Htaint).
  destruct fuel as [|[|fuel]]; [lia|lia|].
  cbn [UnregisterNative]. rewrite Hm.
  destruct Htaint as [[Hh Hf] | [Hh (b & mb & Hb & Hmb & Hfb)]].
  - rewrite Hh, Hf. unfold CHECK. rewrite andb_false_r. reflexivity.
  - rewrite Hh, Hb. cbn [UnregisterNative]. rewrite Hmb.
    destruct (Hwf id m Hm Hh) as (b2 & mb2 & Hb2 & Hmb2 & Hbh & _).
    rewrite Hb in Hb2. injection Hb2 as <-. rewrite Hmb in Hmb2. injection Hmb2 as <-.
    rewrite Hbh, Hfb. unfold CHECK. rewrite andb_false_r. reflexivity.
Qed.

(** C10: in a well-formed store, RegisterNative with [is_fast] sets the
    fast-native bit of a non-hooked target; after it, whatever sequence of
    this file's descriptor operations (RegisterNative, UnregisterNative,
    InvalidateCompiledCode, EnableXposedHook) runs successfully, an
    UnregisterNative of the same method fails its CHECK: the bit is never
    cleared and the dlsym lookup stub is never restored. *)
Theorem fast_native_unregister_aborts (rt : Runtime) (fuel : nat) (id : nat) (p : Z)
    (ops : list Op) (s s1 s2 : State) :
  (2 <= fuel)%nat ->
  hooks_wf (methods s) ->
  RegisterNative fuel id p true s = Ok s1 ->
  run rt fuel ops s1 = Ok s2 ->
  (forall m, methods s !! id = Some m -> IsXposedHookedMethod m = false ->
     exists m1, methods s1 !! id = Some m1 /\ IsFastNative m1 = true) /\
  UnregisterNative rt fuel id s2 = Abort "Check failed: IsNative() && !IsFastNative()".
Proof.
  intros Hfuel Hwf Hreg Hrun. split.
  - intros m Hm Hh. destruct (RegisterNative_fast_taints _ _ _ _ _ Hwf Hreg) as [_ (m1 & Hm1 & Ht)].
    exists m1. split; [exact Hm1|].
    destruct fuel as [|fuel]; [discriminate|].
    cbn [RegisterNative] in Hreg. rewrite Hm, Hh in Hreg. unfold CHECK in Hreg.
    destruct (IsNative m); [|discriminate].
    destruct (IsFastNative m); [discriminate|].
    destruct (p =? 0); [discriminate|].
    injection Hreg as <-. cbn [update_method set_methods methods] in Hm1.
    rewrite lookup_insert_eq in Hm1. injection Hm1 as <-.
    change (IsFastNative (registered p true m) = true).
    rewrite registered_fast. apply orb_true_r.
  - destruct (RegisterNative_fast_taints _ _ _ _ _ Hwf Hreg) as [Hwf1 Ht1].
    destruct (run_preserves _ _ _ _ _ id Hwf1 Ht1 Hrun) as [Hwf2 Ht2].
    exact (tainted_UnregisterNative_aborts rt fuel id s2 Hfuel Hwf2 Ht2).
Qed.

Lemma fast_native_unregister_aborts_witness :
  hooks_wf (methods s_native) /\
  RegisterNative 3 1 8192 true s_native = Ok (run_or s_native (RegisterNative 3 1 8192 true s_native)) /\
  run rt0 3 [OpEnableXposedHook 1 99; OpInvalidateCompiledCode 2]
      (run_or s_native (RegisterNative 3 1 8192 true s_native))
    = Ok (run_or s_native (run rt0 3 [OpEnableXposedHook 1 99; OpInvalidateCompiledCode 2]
                             (run_or s_native (RegisterNative 3 1 8192 true s_native)))) /\
  UnregisterNative rt0 3 1
      (run_or s_native (run rt0 3 [OpEnableXposedHook 1 99; OpInvalidateCompiledCode 2]
                          (run_or s_native (RegisterNative 3 1 8192 true s_native))))
    = Abort "Check failed: IsNative() && !IsFastNative()".
Proof.
  assert (Hwf : hooks_wf (methods s_native)).
  { intros i mi Hi Hhi. cbn [methods s_native] in Hi.
    rewrite lookup_singleton in Hi. case_decide; [|discriminate].
    injection Hi as <-. vm_compute in Hhi. discriminate. }
  assert (Hreg : RegisterNative 3 1 8192 true s_native
                 = Ok (run_or s_native (RegisterNative 3 1 8192 true s_native)))
    by (vm_compute; reflexivity).
  assert (Hrun : run rt0 3 [OpEnableXposedHook 1 99; OpInvalidateCompiledCode 2]
                   (run_or s_native (RegisterNative 3 1 8192 true s_native))
                 = Ok (run_or s_native (run rt0 3 [OpEnableXposedHook 1 99; OpInvalidateCompiledCode 2]
                             (run_or s_native (RegisterNative 3 1 8192 true s_native)))))
    by (vm_compute; reflexivity).
  split; [exact Hwf|]. split; [exact Hreg|]. split; [exact Hrun|].
  refine (proj2 (fast_native_unregister_aborts rt0 3 1 8192 _ _ _ _ _ Hwf Hreg Hrun)).
  lia.
Defined.

(* ================================================================== *)
(** * Further properties of [art_method.cc] *)

(** ** NumArgRegisters *)

Lemma wide_count_le (s : string) : (wide_count s <= String.length s)%nat.
Proof.
  induction s as [|ch rest IH]; cbn [wide_count String.length]; [lia|].
  destruct (Ascii.eqb ch "D"%char || Ascii.eqb ch "J"%char); lia.
Qed.

Lemma NumArgRegistersLoop_spec (rest : string) (acc : Z) :
  0 <= acc -> acc + 2 * Z.of_nat (String.length rest) < 2 ^ 32 ->
  NumArgRegistersLoop rest acc = acc + Z.of_nat (String.length rest + wide_count rest).
Proof.
  revert acc. induction rest as [|ch rest IH]; intros acc H0 Hb.
  - cbn. lia.
  - cbn [NumArgRegistersLoop String.length wide_count] in *.
    destruct (Ascii.eqb ch "D"%char || Ascii.eqb ch "J"%char).
    + rewrite Z.mod_small by lia. rewrite IH by lia. lia.
    + rewrite Z.mod_small by lia. rewrite IH by lia. lia.
Qed.

(** X1: NumArgRegisters fails its CHECK on an empty shorty.  Otherwise the
    return-type character is skipped and every argument character counts
    one register, two for a 'D' or 'J' (wide) argument, so the result lies
    between the number of arguments and twice that number; this holds for
    any shorty shorter than 2^31 characters, where the 32-bit counter cannot
    wrap. *)
Theorem NumArgRegisters_counts (ret : ascii) (args : string) :
  Z.of_nat (String.length args) < 2 ^ 31 ->
  NumArgRegisters "" = Abort "Check failed: 1U <= shorty.length()" /\
  NumArgRegisters (String ret args) = Ok (Z.of_nat (String.length args + wide_count args)) /\
  Z.of_nat (String.length args) <= Z.of_nat (String.length args + wide_count args)
    <= 2 * Z.of_nat (String.length args).
Proof.
  intros Hlen. split; [reflexivity|]. split.
  - unfold NumArgRegisters, CHECK. cbn [String.length Nat.leb].
    rewrite NumArgRegistersLoop_spec by lia. reflexivity.
  - pose proof (wide_count_le args). lia.
Qed.

Lemma NumArgRegisters_counts_witness :
  Z.of_nat (String.length "JID") < 2 ^ 31 /\
  NumArgRegisters "" = Abort "Check failed: 1U <= shorty.length()" /\
  NumArgRegisters (String "V"%char "JID") = Ok (Z.of_nat (String.length "JID" + wide_count "JID")) /\
  Z.of_nat (String.length "JID") <= Z.of_nat (String.length "JID" + wide_count "JID")
    <= 2 * Z.of_nat (String.length "JID").
Proof.
  assert (H : Z.of_nat (String.length "JID") < 2 ^ 31) by (cbn; lia).
  split; [exact H|]. exact (NumArgRegisters_counts "V"%char "JID" H).
Defined.

(** ** ThrowInvocationTimeError *)

(** X2: For a method that cannot be invoked, the error is an
    IncompatibleClassChangeError for a default-method conflict whenever the
    default-conflict bit is set, abstract or not, and an AbstractMethodError
    otherwise.  Called on an invokable method it fails its DCHECK in a
    debug build, and in a release build it throws AbstractMethodError. *)
Theorem ThrowInvocationTimeError_kind (rt : Runtime) (m : ArtMethod) :
  (IsInvokable m = false ->
   ThrowInvocationTimeError rt m =
     Ok (if IsDefaultConflicting m then IncompatibleClassChangeErrorForMethodConflict
         else AbstractMethodError)) /\
  (IsInvokable m = true ->
   ThrowInvocationTimeError rt m =
     if kIsDebugBuild rt then Abort "Check failed: !IsInvokable()" else Ok AbstractMethodError).
Proof.
  unfold ThrowInvocationTimeError, IsInvokable, DCHECK.
  destruct (IsAbstract m), (IsDefaultConflicting m), (kIsDebugBuild rt);
    cbn; split; intros H; solve [reflexivity | discriminate].
Qed.

(** ** EqualParameters *)

Lemma EqualParametersLoop_spec (resolve : Z -> option Z) (xs ps : list Z) :
  length xs = length ps ->
  EqualParametersLoop resolve xs ps = true <-> map resolve xs = map Some ps.
Proof.
  revert ps. induction xs as [|x xs IH]; intros [|p ps] Hl; cbn in *;
    try discriminate; [split; reflexivity|].
  destruct (resolve x) as [t|].
  - destruct (Z.eqb_spec t p) as [->|Hne].
    + rewrite IH by lia. split; [intros ->; reflexivity | intros [= ?]; assumption].
    + split; [discriminate | intros [= ? _]; congruence].
  - split; discriminate.
Qed.

(** X3: EqualParameters answers true exactly when every type of the declared
    prototype resolves and the resolved classes are, position by position,
    the given parameter classes; a missing prototype list or a null array
    counts as empty, a length mismatch or a failed resolution gives false. *)
Theorem EqualParameters_spec (resolve : Z -> option Z) (proto_params params : option (list Z)) :
  EqualParameters resolve proto_params params = true <->
  map resolve (default [] proto_params) = map Some (default [] params).
Proof.
  unfold EqualParameters.
  assert (Hc : (match proto_params with Some l => length l | None => 0%nat end)
               = length (default [] proto_params)) by (destruct proto_params; reflexivity).
  assert (Hp : (match params with Some l => length l | None => 0%nat end)
               = length (default [] params)) by (destruct params; reflexivity).
  rewrite Hc, Hp.
  destruct (Nat.eqb_spec (length (default [] params)) (length (default [] proto_params)))
    as [Heq|Hne]; cbn [negb].
  - apply EqualParametersLoop_spec. congruence.
  - split; [discriminate|]. intros E. exfalso. apply Hne.
    rewrite <- (length_map Some), <- E, length_map. reflexivity.
Qed.

(** ** HasAnyCompiledCode and InvalidateCompiledCode *)

(** X4: After a successful InvalidateCompiledCode the method no longer counts
    its AOT code: HasAnyCompiledCode is then true only when a JIT exists and
    its code cache holds the method, so without a JIT it is false. *)
Theorem InvalidateCompiledCode_no_aot_code (rt : Runtime) (jit_contains_method : nat -> bool)
    (this : nat) (s s' : State) :
  InvalidateCompiledCode rt this s = Ok s' ->
  exists m', methods s' !! this = Some m' /\
    HasAnyCompiledCode rt jit_contains_method this m' = HasJit rt && jit_contains_method this.
Proof.
  unfold InvalidateCompiledCode. destruct (methods s !! this) as [m|]; [|discriminate].
  unfold CHECK. destruct (negb (IsXposedHookedMethod m)); [|discriminate].
  destruct (UseJitCompilation rt); intros H; injection H as <-; eexists;
    (split; [cbn [update_method set_methods methods emit]; rewrite ?lookup_insert_eq; reflexivity|]);
    unfold HasAnyCompiledCode; destruct (ignore_aot_code m) eqn:Ei; cbn; rewrite ?Ei;
    apply orb_false_r.
Qed.

Lemma InvalidateCompiledCode_no_aot_code_witness :
  InvalidateCompiledCode (rt_with_oat true 65536) 1 s0
    = Ok (run_or s0 (InvalidateCompiledCode (rt_with_oat true 65536) 1 s0)) /\
  exists m', methods (run_or s0 (InvalidateCompiledCode (rt_with_oat true 65536) 1 s0)) !! 1%nat
               = Some m' /\
    HasAnyCompiledCode (rt_with_oat true 65536) (fun _ => false) 1 m'
      = HasJit (rt_with_oat true 65536) && false.
Proof.
  assert (H : InvalidateCompiledCode (rt_with_oat true 65536) 1 s0
              = Ok (run_or s0 (InvalidateCompiledCode (rt_with_oat true 65536) 1 s0)))
    by (vm_compute; reflexivity).
  split; [exact H|]. exact (InvalidateCompiledCode_no_aot_code _ (fun _ => false) 1 _ _ H).
Defined.

(** X5: InvalidateCompiledCode is idempotent on the method store: a second
    successful call on the same method leaves every descriptor as the first
    call left it. *)
Theorem InvalidateCompiledCode_idempotent (rt : Runtime) (this : nat) (s s1 s2 : State) :
  InvalidateCompiledCode rt this s = Ok s1 ->
  InvalidateCompiledCode rt this s1 = Ok s2 ->
  methods s2 = methods s1.
Proof.
  intros H1 H2. unfold InvalidateCompiledCode in H1.
  destruct (methods s !! this) as [m|] eqn:Hm; [|discriminate].
  unfold CHECK in H1. destruct (negb (IsXposedHookedMethod m)) eqn:Hh; [|discriminate].
  set (m1 := if ignore_aot_code m then m else set_ignore_aot_code m) in H1.
  assert (Hi1 : ignore_aot_code m1 = true)
    by (subst m1; destruct (ignore_aot_code m) eqn:E; [exact E | reflexivity]).
  assert (Hh1 : IsXposedHookedMethod m1 = IsXposedHookedMethod m)
    by (subst m1; destruct (ignore_aot_code m); reflexivity).
  unfold InvalidateCompiledCode, CHECK in H2.
  destruct (UseJitCompilation rt) eqn:Hjit; injection H1 as <-;
    cbn [update_method set_methods methods emit] in H2 |- *;
    rewrite ?lookup_insert_eq in H2.
  - rewrite Hh1, Hh, Hi1 in H2. injection H2 as <-. cbn. apply insert_insert_eq.
  - change (IsXposedHookedMethod (set_entry_point_from_quick_compiled_code
              (QuickToInterpreterBridge rt) m1)) with (IsXposedHookedMethod m1) in H2.
    change (ignore_aot_code (set_entry_point_from_quick_compiled_code
              (QuickToInterpreterBridge rt) m1)) with (ignore_aot_code m1) in H2.
    rewrite Hh1, Hh, Hi1 in H2. injection H2 as <-. cbn [update_method set_methods methods].
    rewrite !insert_insert_eq. reflexivity.
Qed.

Lemma InvalidateCompiledCode_idempotent_witness :
  InvalidateCompiledCode rt0 1 s0 = Ok (run_or s0 (InvalidateCompiledCode rt0 1 s0)) /\
  InvalidateCompiledCode rt0 1 (run_or s0 (InvalidateCompiledCode rt0 1 s0))
    = Ok (run_or s0 (InvalidateCompiledCode rt0 1 (run_or s0 (InvalidateCompiledCode rt0 1 s0)))) /\
  methods (run_or s0 (InvalidateCompiledCode rt0 1 (run_or s0 (InvalidateCompiledCode rt0 1 s0))))
    = methods (run_or s0 (InvalidateCompiledCode rt0 1 s0)).
Proof.
  assert (H1 : InvalidateCompiledCode rt0 1 s0 = Ok (run_or s0 (InvalidateCompiledCode rt0 1 s0)))
    by (vm_compute; reflexivity).
  assert (H2 : InvalidateCompiledCode rt0 1 (run_or s0 (InvalidateCompiledCode rt0 1 s0))
    = Ok (run_or s0 (InvalidateCompiledCode rt0 1 (run_or s0 (InvalidateCompiledCode rt0 1 s0)))))
    by (vm_compute; reflexivity).
  split; [exact H1|]. split; [exact H2|].
  exact (InvalidateCompiledCode_idempotent _ _ _ _ _ H1 H2).
Defined.

(** ** Invoke *)

Ltac case_outcome H :=
  unfold CHECK, DCHECK, obind in H;
  repeat (cbv beta iota zeta in H;
          match type of H with
          | context [if ?b then _ else _] => destruct b
          | context [match ?x with Some _ => _ | None => _ end] => destruct x
          | context [match ?x with ExcObject _ => _ | _ => _ end] => destruct x
          | context [match ?x with (_, _) => _ end] => destruct x
          | context [match ?x with Ok _ => _ | Abort _ => _ end] => destruct x
          end; try discriminate H).

(** X6: Whenever Invoke returns, the managed-stack fragment it pushed has been
    popped again: the managed stack is the caller's, whatever the
    interpreter or the compiled code did to it. *)
Theorem Invoke_balanced (rt : Runtime) (this : nat) (m : ArtMethod)
    (frame_address stack_end : Z) (runnable : bool) (shorty_arg : string)
    (result : option Z) (s s' : State) (r : option Z) :
  Invoke rt this m frame_address stack_end runnable shorty_arg result s = Ok (s', r) ->
  managed_stack s' = managed_stack s.
Proof.
  intros H. unfold Invoke in H.
  destruct (frame_address <? stack_end).
  { injection H as <- <-. reflexivity. }
  case_outcome H; injection H as <- <-; reflexivity.
Qed.

Lemma Invoke_balanced_witness :
  Invoke rt0 1 m0 8192 4096 true "V" None s0
    = Ok (fst (invoke_or (s0, None) (Invoke rt0 1 m0 8192 4096 true "V" None s0)),
          snd (invoke_or (s0, None) (Invoke rt0 1 m0 8192 4096 true "V" None s0))) /\
  managed_stack (fst (invoke_or (s0, None) (Invoke rt0 1 m0 8192 4096 true "V" None s0)))
    = managed_stack s0.
Proof.
  assert (H : Invoke rt0 1 m0 8192 4096 true "V" None s0
    = Ok (fst (invoke_or (s0, None) (Invoke rt0 1 m0 8192 4096 true "V" None s0)),
          snd (invoke_or (s0, None) (Invoke rt0 1 m0 8192 4096 true "V" None s0))))
    by (vm_compute; reflexivity).
  split; [exact H|]. exact (Invoke_balanced _ _ _ _ _ _ _ _ _ _ _ H).
Defined.

(** X7: Before the runtime is started, or when the debugger forces the
    interpreter for this method, Invoke runs the method in the interpreter,
    even when compiled code exists: the interpreter runs with the
    managed-stack fragment pushed, and Invoke returns its value behind
    [result] and its state with the fragment popped (an abort in the
    interpreter is Invoke's abort); no other code runs. *)
Theorem Invoke_interpreter (rt : Runtime) (this : nat) (m : ArtMethod)
    (frame_address stack_end : Z) (runnable : bool) (shorty_arg : string)
    (result : option Z) (s : State) :
  stack_end <= frame_address ->
  (kIsDebugBuild rt = true ->
     ThreadSuspensionAllowable rt = true /\ runnable = true /\
     String.eqb (shorty m) shorty_arg = true /\ ImagePointerSize rt = PointerSize rt) ->
  IsStarted rt = false \/ IsForcedInterpreterNeededForCalling rt this = true ->
  Invoke rt this m frame_address stack_end runnable shorty_arg result s
    = pop_fragment s (Interpret rt this result (push_fragment s)).
Proof.
  intros Hst Hdbg Hint.
  destruct (Invoke_debug_checks rt m runnable shorty_arg Hdbg) as (Hk1 & Hk2 & Hk3 & _).
  assert (Hc : negb (IsStarted rt) || IsForcedInterpreterNeededForCalling rt this = true)
    by (destruct Hint as [-> | ->]; [reflexivity | apply orb_true_r]).
  unfold Invoke, CHECK. rewrite (proj2 (Z.ltb_ge _ _) Hst), Hk1, Hk2, Hk3, Hc.
  unfold pop_fragment, push_fragment.
  destruct (Interpret rt this result _) as [[r2 s2]|msg]; reflexivity.
Qed.

Lemma Invoke_interpreter_witness :
  Invoke (rt_invoke false None) 1 m0 8192 4096 true "V" (Some 0) s0
    = pop_fragment s0 (Interpret (rt_invoke false None) 1 (Some 0) (push_fragment s0)).
Proof.
  apply Invoke_interpreter; [lia | intros _; repeat split; reflexivity | left; reflexivity].
Defined.

(** X8: In a started runtime, for a method with compiled code and no forced
    interpretation, when the compiled code returns with the
    deoptimization exception pending, Invoke continues the call with
    DeoptimizeWithDeoptimizationException from the state and the value
    behind [result] the compiled code left, and returns what that
    continuation returns, with the managed-stack fragment popped. *)
Theorem Invoke_deoptimizes (rt : Runtime) (this : nat) (m : ArtMethod)
    (frame_address stack_end : Z) (runnable : bool) (shorty_arg : string)
    (result : option Z) (s : State) (r2 : option Z) (s2 : State) :
  stack_end <= frame_address ->
  (kIsDebugBuild rt = true ->
     ThreadSuspensionAllowable rt = true /\ runnable = true /\
     String.eqb (shorty m) shorty_arg = true /\ ImagePointerSize rt = PointerSize rt) ->
  IsStarted rt = true ->
  IsForcedInterpreterNeededForCalling rt this = false ->
  entry_point_from_quick_compiled_code m <> 0 ->
  kIsDebugBuild rt && IsForcedInterpretOnly rt = false ->
  QuickInvokeStub rt this result (push_fragment s) = Ok (r2, s2) ->
  exception s2 = Some DeoptimizationException ->
  Invoke rt this m frame_address stack_end runnable shorty_arg result s
    = pop_fragment s (DeoptimizeWithDeoptimizationException rt r2 s2).
Proof.
  intros Hst Hdbg Hstarted Hforced Hep Hxint Hstub Hexc.
  destruct (Invoke_debug_checks rt m runnable shorty_arg Hdbg) as (Hk1 & Hk2 & Hk3 & Hk4).
  unfold Invoke, CHECK, DCHECK.
  rewrite (proj2 (Z.ltb_ge _ _) Hst), Hk1, Hk2, Hk3, Hstarted, Hforced, Hk4, Hxint.
  rewrite (proj2 (Z.eqb_neq _ _) Hep). cbn [negb orb obind].
  unfold push_fragment in Hstub. rewrite Hstub. cbn [obind]. rewrite Hexc.
  unfold pop_fragment. destruct (DeoptimizeWithDeoptimizationException rt r2 s2) as [[r3 s3]|msg];
    reflexivity.
Qed.

Lemma Invoke_deoptimizes_witness :
  Invoke (rt_invoke true (Some DeoptimizationException)) 1 m0 8192 4096 true "V" (Some 0) s0
    = pop_fragment s0
        (DeoptimizeWithDeoptimizationException (rt_invoke true (Some DeoptimizationException))
           (Some 7) (set_exception (Some DeoptimizationException) (push_fragment s0))).
Proof.
  apply Invoke_deoptimizes;
    solve [lia | intros _; repeat split; reflexivity | reflexivity | discriminate].
Defined.

(** X9: In a started runtime, for a method with compiled code and no forced
    interpretation, when the compiled code returns without the
    deoptimization exception pending, Invoke returns the value the compiled
    code left behind [result] and the state it left, exception included,
    with the managed-stack fragment popped. *)
Theorem Invoke_compiled_code (rt : Runtime) (this : nat) (m : ArtMethod)
    (frame_address stack_end : Z) (runnable : bool) (shorty_arg : string)
    (result : option Z) (s : State) (r2 : option Z) (s2 : State) :
  stack_end <= frame_address ->
  (kIsDebugBuild rt = true ->
     ThreadSuspensionAllowable rt = true /\ runnable = true /\
     String.eqb (shorty m) shorty_arg = true /\ ImagePointerSize rt = PointerSize rt) ->
  IsStarted rt = true ->
  IsForcedInterpreterNeededForCalling rt this = false ->
  entry_point_from_quick_compiled_code m <> 0 ->
  kIsDebugBuild rt && IsForcedInterpretOnly rt = false ->
  QuickInvokeStub rt this result (push_fragment s) = Ok (r2, s2) ->
  exception s2 <> Some DeoptimizationException ->
  Invoke rt this m frame_address stack_end runnable shorty_arg result s
    = Ok (set_managed_stack (managed_stack s) s2, r2).
Proof.
  intros Hst Hdbg Hstarted Hforced Hep Hxint Hstub Hexc.
  destruct (Invoke_debug_checks rt m runnable shorty_arg Hdbg) as (Hk1 & Hk2 & Hk3 & Hk4).
  unfold Invoke, CHECK, DCHECK.
  rewrite (proj2 (Z.ltb_ge _ _) Hst), Hk1, Hk2, Hk3, Hstarted, Hforced, Hk4, Hxint.
  rewrite (proj2 (Z.eqb_neq _ _) Hep). cbn [negb orb obind].
  unfold push_fragment in Hstub. rewrite Hstub. cbn [obind].
  destruct (exception s2) as [[]|]; solve [reflexivity | congruence].
Qed.

Lemma Invoke_compiled_code_witness :
  Invoke (rt_invoke true (Some (ExcObject 99))) 1 m0 8192 4096 true "V" (Some 0) s0
    = Ok (set_managed_stack (managed_stack s0)
            (set_exception (Some (ExcObject 99)) (push_fragment s0)), Some 7).
Proof.
  apply (Invoke_compiled_code _ _ _ _ _ _ _ _ _ (Some 7)
           (set_exception (Some (ExcObject 99)) (push_fragment s0)));
    solve [lia | intros _; repeat split; reflexivity | reflexivity | discriminate].
Defined.

(** ** FindCatchBlock *)

Lemma FindCatchBlockLoop_result rt exception_type hs s :
  fst (FindCatchBlockLoop rt exception_type hs s) = kDexNoIndex \/
  In (fst (FindCatchBlockLoop rt exception_type hs s)) (map snd hs).
Proof.
  revert s. induction hs as [|[idx addr] rest IH]; intros s; cbn [FindCatchBlockLoop].
  - cbn. auto.
  - destruct (idx =? kDexNoIndex16); [cbn; auto|].
    destruct (GetClassFromTypeIndex rt idx) as [c|].
    + destruct (IsAssignableFrom rt c exception_type); [cbn; auto|].
      cbn [map snd]. destruct (IH s) as [Hf|Hf]; [left|right; right]; exact Hf.
    + match goal with |- context [FindCatchBlockLoop rt exception_type rest ?s1] =>
        destruct (IH s1) as [Hf|Hf] end;
      cbn [map snd]; [left|right; right]; exact Hf.
Qed.

(** X10: FindCatchBlock answers either [kDexNoIndex] or the address of one of
    the handlers of the try item covering [dex_pc]. *)
Theorem FindCatchBlock_result (rt : Runtime) (m : ArtMethod) (exception_type dex_pc : Z)
    (has_no_move : bool) (s : State) :
  fst (fst (FindCatchBlock rt m exception_type dex_pc has_no_move s)) = kDexNoIndex \/
  In (fst (fst (FindCatchBlock rt m exception_type dex_pc has_no_move s)))
     (map snd (CatchHandlers (code_item m) dex_pc)).
Proof.
  unfold FindCatchBlock.
  pose proof (FindCatchBlockLoop_result rt exception_type (CatchHandlers (code_item m) dex_pc)
                (set_exception None s)) as Hf.
  destruct (FindCatchBlockLoop rt exception_type _ (set_exception None s)) as [f s1].
  cbn [fst snd] in *. destruct (exception s); exact Hf.
Qed.

Lemma find_none_Forall {A} (p : A -> bool) (l : list A) :
  Forall (fun x => p x = false) l -> find p l = None.
Proof. induction 1 as [|x l Hx _ IH]; cbn; [reflexivity|]. rewrite Hx. exact IH. Qed.

(** X11: When no try item of the code covers [dex_pc], FindCatchBlock answers
    [kDexNoIndex], leaves [*has_no_move_exception] as it was and changes
    nothing at all: the pending exception, the long-jump context and the
    log are those on entry. *)
Theorem FindCatchBlock_uncovered (rt : Runtime) (m : ArtMethod) (exception_type dex_pc : Z)
    (has_no_move : bool) (s : State) :
  Forall (fun t => ~ (try_start t <= dex_pc < try_start t + try_count t)) (tries (code_item m)) ->
  FindCatchBlock rt m exception_type dex_pc has_no_move s = (kDexNoIndex, has_no_move, s).
Proof.
  intros Hnone. unfold FindCatchBlock, CatchHandlers.
  rewrite find_none_Forall.
  - cbn [FindCatchBlockLoop]. rewrite Z.eqb_refl. cbn [negb].
    destruct s as [ms sts [e|] ljc mst lg]; reflexivity.
  - eapply Forall_impl; [exact Hnone|]. intros t Ht. cbn beta in Ht.
    destruct (try_start t <=? dex_pc) eqn:E1; [|reflexivity].
    destruct (dex_pc <? try_start t + try_count t) eqn:E2; [|reflexivity].
    exfalso. apply Ht. rewrite Z.leb_le in E1. rewrite Z.ltb_lt in E2. lia.
Qed.

Lemma FindCatchBlock_uncovered_witness :
  FindCatchBlock rt0 m0 3 50 true (set_exception (Some (ExcObject 77)) s0)
    = (kDexNoIndex, true, set_exception (Some (ExcObject 77)) s0).
Proof.
  apply FindCatchBlock_uncovered. constructor; [cbn; lia | constructor].
Defined.

(** ** EnableXposedHook *)

(** X12: The backup named by the hook record of a newly hooked descriptor is
    newly allocated: its address is not the hooked descriptor's, held no
    descriptor before the hook, and holds one afterwards. *)
Theorem EnableXposedHook_fresh_backup (rt : Runtime) (this : nat) (additional : Z)
    (s s' : State) (m : ArtMethod) :
  methods s !! this = Some m ->
  IsXposedHookedMethod m = false -> IsXposedOriginalMethod m = false ->
  EnableXposedHook rt this additional s = Ok s' ->
  exists b, methods s' !! this ≫= GetXposedOriginalMethod = Some b /\
    b <> this /\ methods s !! b = None /\ is_Some (methods s' !! b).
Proof.
  intros Hm Hh Ho Hrun. exists (fresh (dom (methods s))).
  rewrite (EnableXposedHook_lookup_this rt this additional s m s' Hm Hh Ho Hrun).
  split; [reflexivity|].
  split; [intros E; apply (fresh_neq _ _ _ Hm); symmetry; exact E|].
  split; [apply fresh_not_in|].
  rewrite (EnableXposedHook_lookup_backup rt this additional s m s' Hm Hh Ho Hrun).
  eexists; reflexivity.
Qed.

Lemma EnableXposedHook_fresh_backup_witness :
  EnableXposedHook rt0 1 99 s0 = Ok (run_or s0 (EnableXposedHook rt0 1 99 s0)) /\
  exists b, methods (run_or s0 (EnableXposedHook rt0 1 99 s0)) !! 1%nat ≫= GetXposedOriginalMethod
              = Some b /\
    b <> 1%nat /\ methods s0 !! b = None /\
    is_Some (methods (run_or s0 (EnableXposedHook rt0 1 99 s0)) !! b).
Proof.
  assert (H : EnableXposedHook rt0 1 99 s0 = Ok (run_or s0 (EnableXposedHook rt0 1 99 s0)))
    by (vm_compute; reflexivity).
  split; [exact H|].
  exact (EnableXposedHook_fresh_backup rt0 1 99 s0 _ m0 eq_refl eq_refl eq_refl H).
Defined.

(** X13: After a successful hook, the hook record of the hooked descriptor
    names the backup, a copy of the original method: same declaring class,
    code item, code-item offset, method index and shorty, the original
    access flags with the backup bit added, a zero hotness counter and,
    when the JIT is in use, a compiled-code entry point outside the JIT
    code cache (JIT code is demoted to the interpreter bridge). *)
Theorem EnableXposedHook_backup_copy (rt : Runtime) (this : nat) (additional : Z)
    (s s' : State) (m : ArtMethod) :
  methods s !! this = Some m ->
  IsXposedHookedMethod m = false -> IsXposedOriginalMethod m = false ->
  EnableXposedHook rt this additional s = Ok s' ->
  exists b mb,
    methods s' !! this ≫= GetXposedOriginalMethod = Some b /\ methods s' !! b = Some mb /\
    declaring_class mb = declaring_class m /\ code_item mb = code_item m /\
    dex_code_item_offset mb = dex_code_item_offset m /\
    dex_method_index mb = dex_method_index m /\ shorty mb = shorty m /\
    access_flags mb = Z.lor (access_flags m) kAccXposedOriginalMethod /\
    hotness_count mb = 0 /\
    (UseJitCompilation rt = true -> JitContainsPc rt (QuickToInterpreterBridge rt) = false ->
     JitContainsPc rt (entry_point_from_quick_compiled_code mb) = false).
Proof.
  intros Hm Hh Ho Hrun.
  exists (fresh (dom (methods s))), (backup_descriptor rt m).
  rewrite (EnableXposedHook_lookup_this rt this additional s m s' Hm Hh Ho Hrun).
  split; [reflexivity|].
  split; [exact (EnableXposedHook_lookup_backup rt this additional s m s' Hm Hh Ho Hrun)|].
  unfold backup_descriptor, CopyFrom.
  destruct (UseJitCompilation rt && JitContainsPc rt (entry_point_from_quick_compiled_code m))
    eqn:Ej;
    destruct (IsNative m) eqn:En; cbn; (repeat split); intros; try discriminate; try congruence.
  all: match goal with H : UseJitCompilation _ = true |- _ => rewrite H in Ej end; exact Ej.
Qed.

Lemma EnableXposedHook_backup_copy_witness :
  EnableXposedHook rt0 1 99 s0 = Ok (run_or s0 (EnableXposedHook rt0 1 99 s0)) /\
  exists b mb,
    methods (run_or s0 (EnableXposedHook rt0 1 99 s0)) !! 1%nat ≫= GetXposedOriginalMethod
      = Some b /\
    methods (run_or s0 (EnableXposedHook rt0 1 99 s0)) !! b = Some mb /\
    declaring_class mb = declaring_class m0 /\ code_item mb = code_item m0 /\
    dex_code_item_offset mb = dex_code_item_offset m0 /\
    dex_method_index mb = dex_method_index m0 /\ shorty mb = shorty m0 /\
    access_flags mb = Z.lor (access_flags m0) kAccXposedOriginalMethod /\
    hotness_count mb = 0 /\
    (UseJitCompilation rt0 = true -> JitContainsPc rt0 (QuickToInterpreterBridge rt0) = false ->
     JitContainsPc rt0 (entry_point_from_quick_compiled_code mb) = false).
Proof.
  assert (H : EnableXposedHook rt0 1 99 s0 = Ok (run_or s0 (EnableXposedHook rt0 1 99 s0)))
    by (vm_compute; reflexivity).
  split; [exact H|].
  exact (EnableXposedHook_backup_copy rt0 1 99 s0 _ m0 eq_refl eq_refl eq_refl H).
Defined.

Lemma EnableXposedHook_stacks rt this additional s m s' :
  methods s !! this = Some m ->
  IsXposedHookedMethod m = false -> IsXposedOriginalMethod m = false ->
  EnableXposedHook rt this additional s = Ok s' ->
  stacks s' = map (replace_frames this (fresh (dom (methods s)))) (stacks s).
Proof.
  intros Hm Hh Ho Hrun. unfold EnableXposedHook in Hrun. rewrite Hm, Hh, Ho in Hrun.
  rewrite (ThreadListForEach_spec _ this (fresh (dom (methods s)))) in Hrun.
  - injection Hrun as <-. reflexivity.
  - cbn. rewrite lookup_insert_eq. reflexivity.
Qed.

Lemma Forall2_map_r {A B} (R : A -> B -> Prop) (f : A -> B) (l : list A) :
  (forall x, In x l -> R x (f x)) -> Forall2 R l (map f l).
Proof.
  induction l as [|x l IH]; intros H; cbn; constructor.
  - apply H. left. reflexivity.
  - apply IH. intros y Hy. apply H. right. exact Hy.
Qed.

(** X14: Once a method is hooked, no thread has a frame running its (now
    rewritten) descriptor: every frame that ran it runs the backup named by
    its hook record instead, and every other frame is kept, so no thread
    resumes in the hooked method's old code. *)
Theorem EnableXposedHook_no_hooked_frame (rt : Runtime) (this : nat) (additional : Z)
    (s s' : State) (m : ArtMethod) :
  methods s !! this = Some m ->
  IsXposedHookedMethod m = false -> IsXposedOriginalMethod m = false ->
  EnableXposedHook rt this additional s = Ok s' ->
  exists b, methods s' !! this ≫= GetXposedOriginalMethod = Some b /\
    Forall (fun st => ~ In this st) (stacks s') /\
    Forall2 (Forall2 (fun f f' => (f = this /\ f' = b) \/ (f <> this /\ f' = f)))
      (stacks s) (stacks s').
Proof.
  intros Hm Hh Ho Hrun. exists (fresh (dom (methods s))).
  rewrite (EnableXposedHook_lookup_this rt this additional s m s' Hm Hh Ho Hrun).
  split; [reflexivity|].
  rewrite (EnableXposedHook_stacks rt this additional s m s' Hm Hh Ho Hrun).
  split.
  - apply List.Forall_forall. intros st Hst. apply in_map_iff in Hst as (st0 & <- & _).
    unfold replace_frames. intros Hin. apply in_map_iff in Hin as (f & Hf & _).
    destruct (Nat.eqb_spec f this) as [_|Hne].
    + apply (fresh_neq _ _ _ Hm). symmetry. exact Hf.
    + exact (Hne Hf).
  - apply Forall2_map_r. intros st _. unfold replace_frames.
    apply Forall2_map_r. intros f _.
    destruct (Nat.eqb_spec f this) as [E|E]; [left|right]; split; auto.
Qed.

Lemma EnableXposedHook_no_hooked_frame_witness :
  EnableXposedHook rt0 1 99 s0 = Ok (run_or s0 (EnableXposedHook rt0 1 99 s0)) /\
  exists b, methods (run_or s0 (EnableXposedHook rt0 1 99 s0)) !! 1%nat ≫= GetXposedOriginalMethod
              = Some b /\
    Forall (fun st => ~ In 1%nat st) (stacks (run_or s0 (EnableXposedHook rt0 1 99 s0))) /\
    Forall2 (Forall2 (fun f f' => (f = 1%nat /\ f' = b) \/ (f <> 1%nat /\ f' = f)))
      (stacks s0) (stacks (run_or s0 (EnableXposedHook rt0 1 99 s0))).
Proof.
  assert (H : EnableXposedHook rt0 1 99 s0 = Ok (run_or s0 (EnableXposedHook rt0 1 99 s0)))
    by (vm_compute; reflexivity).
  split; [exact H|].
  exact (EnableXposedHook_no_hooked_frame rt0 1 99 s0 _ m0 eq_refl eq_refl eq_refl H).
Defined.

(** X15: A hooked method has no compiled-code header: once hooking succeeded,
    GetOatQuickMethodHeader on the hooked descriptor returns null for every
    pc (its entry point is the proxy invoke handler), in any build, as long
    as the debug build is not given the instrumentation exit pc. *)
Theorem EnableXposedHook_no_method_header (rt : Runtime) (this : nat) (additional : Z)
    (s s' : State) (m m' : ArtMethod) (pc : Z) :
  methods s !! this = Some m ->
  IsXposedHookedMethod m = false -> IsXposedOriginalMethod m = false ->
  EnableXposedHook rt this additional s = Ok s' ->
  QuickProxyInvokeHandler rt <> 0 ->
  (kIsDebugBuild rt = true -> pc <> QuickInstrumentationExitPc rt) ->
  methods s' !! this = Some m' ->
  GetOatQuickMethodHeader rt this m' pc = Ok None.
Proof.
  intros Hm Hh Ho Hrun Hproxy Hpc Hm'.
  rewrite (EnableXposedHook_lookup_this rt this additional s m s' Hm Hh Ho Hrun) in Hm'.
  injection Hm' as <-.
  pose proof (hooked_descriptor_hooked rt m (fresh (dom (methods s))) additional) as Hhk.
  set (m' := hooked_descriptor rt m (fresh (dom (methods s))) additional) in *.
  assert (Hep : entry_point_from_quick_compiled_code m' = QuickProxyInvokeHandler rt)
    by reflexivity.
  unfold GetOatQuickMethodHeader, DCHECK, CHECK.
  assert (Hd : kIsDebugBuild rt && negb (negb (pc =? QuickInstrumentationExitPc rt)) = false).
  { destruct (kIsDebugBuild rt) eqn:Ed; [|reflexivity]. cbn.
    rewrite negb_involutive. apply Z.eqb_neq, Hpc. reflexivity. }
  rewrite Hd. destruct (IsRuntimeMethod m'); [reflexivity|].
  rewrite Hep, (proj2 (Z.eqb_neq _ _) Hproxy). cbn [negb].
  destruct (QuickProxyInvokeHandler rt =? QuickGenericJniStub rt); [reflexivity|].
  rewrite Z.eqb_refl, Hhk. cbn. rewrite andb_false_r. reflexivity.
Qed.

Lemma EnableXposedHook_no_method_header_witness :
  EnableXposedHook rt0 1 99 s0 = Ok (run_or s0 (EnableXposedHook rt0 1 99 s0)) /\
  methods (run_or s0 (EnableXposedHook rt0 1 99 s0)) !! 1%nat
    = Some (hooked_descriptor rt0 m0 (fresh (dom (methods s0))) 99) /\
  GetOatQuickMethodHeader rt0 1 (hooked_descriptor rt0 m0 (fresh (dom (methods s0))) 99) 65540
    = Ok None.
Proof.
  assert (H : EnableXposedHook rt0 1 99 s0 = Ok (run_or s0 (EnableXposedHook rt0 1 99 s0)))
    by (vm_compute; reflexivity).
  assert (H' : methods (run_or s0 (EnableXposedHook rt0 1 99 s0)) !! 1%nat
               = Some (hooked_descriptor rt0 m0 (fresh (dom (methods s0))) 99))
    by (vm_compute; reflexivity).
  split; [exact H|]. split; [exact H'|].
  apply (EnableXposedHook_no_method_header rt0 1 99 s0 _ m0 _ 65540 eq_refl eq_refl eq_refl H);
    [discriminate | intros _; discriminate | exact H'].
Defined.

(** ** Native registration *)

(** X16: On a hooked descriptor of a well-formed store, RegisterNative does not
    touch the hooked descriptor: it forwards to the backup named by the hook
    record and installs the native code there, only there. *)
Theorem RegisterNative_hooked_forwards (fuel : nat) (this : nat) (native_method : Z)
    (is_fast : bool) (s s' : State) (m : ArtMethod) :
  hooks_wf (methods s) -> methods s !! this = Some m -> IsXposedHookedMethod m = true ->
  RegisterNative fuel this native_method is_fast s = Ok s' ->
  exists b mb, GetXposedOriginalMethod m = Some b /\ b <> this /\ methods s !! b = Some mb /\
    s' = update_method b (registered native_method is_fast mb) s.
Proof.
  intros Hwf Hm Hh H.
  destruct (Hwf this m Hm Hh) as (b & mb & Hb & Hmb & Hbh & _).
  destruct fuel as [|fuel]; [discriminate|].
  cbn [RegisterNative] in H. rewrite Hm, Hh, Hb in H.
  destruct fuel as [|fuel]; [discriminate|].
  cbn [RegisterNative] in H. rewrite Hmb, Hbh in H. unfold CHECK in H.
  destruct (IsNative mb); [|discriminate].
  destruct (IsFastNative mb); [discriminate|].
  destruct (native_method =? 0); [discriminate|].
  injection H as <-. exists b, mb.
  split; [exact Hb|]. split; [intros ->; congruence|]. split; [exact Hmb|]. reflexivity.
Qed.

(** X17: Symmetrically, UnregisterNative on a hooked descriptor of a
    well-formed store restores the dlsym lookup stub on the backup only. *)
Theorem UnregisterNative_hooked_forwards (rt : Runtime) (fuel : nat) (this : nat)
    (s s' : State) (m : ArtMethod) :
  hooks_wf (methods s) -> methods s !! this = Some m -> IsXposedHookedMethod m = true ->
  UnregisterNative rt fuel this s = Ok s' ->
  exists b mb, GetXposedOriginalMethod m = Some b /\ b <> this /\ methods s !! b = Some mb /\
    s' = update_method b (registered (JniDlsymLookupStub rt) false mb) s.
Proof.
  intros Hwf Hm Hh H.
  destruct (Hwf this m Hm Hh) as (b & mb & Hb & Hmb & Hbh & _).
  destruct fuel as [|fuel]; [discriminate|].
  cbn [UnregisterNative] in H. rewrite Hm, Hh, Hb in H.
  destruct fuel as [|fuel]; [discriminate|].
  cbn [UnregisterNative] in H. rewrite Hmb, Hbh in H. unfold CHECK in H.
  destruct (IsNative mb && negb (IsFastNative mb)); [|discriminate].
  cbn [RegisterNative] in H. rewrite Hmb, Hbh in H. unfold CHECK in H.
  destruct (IsNative mb); [|discriminate].
  destruct (IsFastNative mb); [discriminate|].
  destruct (JniDlsymLookupStub rt =? 0); [discriminate|].
  injection H as <-. exists b, mb.
  split; [exact Hb|]. split; [intros ->; congruence|]. split; [exact Hmb|]. reflexivity.
Qed.

(** X18: Registering native code on a native, non-fast, non-hooked method and
    unregistering it again succeeds (with a non-null code pointer and a
    non-null dlsym stub) and is a round trip up to the lookup stub: the
    method ends with its foreign-call entry point on the dlsym lookup stub
    and every other field, its access flags included, as before. *)
Theorem RegisterNative_UnregisterNative_roundtrip (rt : Runtime) (fuel : nat) (this : nat)
    (native_method : Z) (s : State) (m : ArtMethod) :
  methods s !! this = Some m ->
  IsXposedHookedMethod m = false -> IsNative m = true -> IsFastNative m = false ->
  native_method <> 0 -> JniDlsymLookupStub rt <> 0 ->
  exists s1 s2,
    RegisterNative (S fuel) this native_method false s = Ok s1 /\
    methods s1 !! this = Some (set_entry_point_from_jni (JniPtr native_method) m) /\
    UnregisterNative rt (S fuel) this s1 = Ok s2 /\
    methods s2 = <[this := set_entry_point_from_jni (JniPtr (JniDlsymLookupStub rt)) m]>
                   (methods s) /\
    stacks s2 = stacks s /\ exception s2 = exception s.
Proof.
  intros Hm Hh Hn Hf Hp Hd.
  assert (E : forall e, IsXposedHookedMethod (set_entry_point_from_jni e m) = false /\
                        IsNative (set_entry_point_from_jni e m) = true /\
                        IsFastNative (set_entry_point_from_jni e m) = false)
    by (intros e; exact (conj Hh (conj Hn Hf))).
  assert (Hreg : forall s0, (exists e, methods s0 !! this = Some (set_entry_point_from_jni e m)) ->
            forall q, q <> 0 ->
            RegisterNative (S fuel) this q false s0
              = Ok (update_method this (set_entry_point_from_jni (JniPtr q) m) s0)).
  { intros s0 [e Hs0] q Hq. cbn [RegisterNative]. rewrite Hs0.
    destruct (E e) as (E1 & E2 & E3). rewrite E1. unfold CHECK. rewrite E2, E3.
    cbn [negb]. rewrite (proj2 (Z.eqb_neq _ _) Hq). reflexivity. }
  assert (Hm0 : methods s !! this = Some (set_entry_point_from_jni (entry_point_from_jni m) m))
    by (rewrite Hm; destruct m; reflexivity).
  eexists _, _. split; [exact (Hreg s (ex_intro _ _ Hm0) native_method Hp)|].
  split; [cbn; apply lookup_insert_eq|].
  split.
  - cbn [UnregisterNative update_method set_methods methods]. rewrite lookup_insert_eq.
    destruct (E (JniPtr native_method)) as (E1 & E2 & E3). rewrite E1.
    unfold CHECK at 1. rewrite E2, E3. cbn [andb negb].
    apply Hreg; [exists (JniPtr native_method); apply lookup_insert_eq | exact Hd].
  - cbn. rewrite insert_insert_eq. repeat split.
Qed.

(** ** Invariants of the descriptor operations *)

Lemma same_hook_fields_wf (ms : gmap nat ArtMethod) j m m' :
  ms !! j = Some m ->
  access_flags m' = access_flags m -> entry_point_from_jni m' = entry_point_from_jni m ->
  hooks_wf ms -> hooks_wf (<[j := m']> ms).
Proof.
  intros Hj Hf Hjni Hwf.
  assert (Eh : IsXposedHookedMethod m' = IsXposedHookedMethod m)
    by (unfold IsXposedHookedMethod; rewrite Hf; reflexivity).
  assert (Eo : IsXposedOriginalMethod m' = IsXposedOriginalMethod m)
    by (unfold IsXposedOriginalMethod; rewrite Hf; reflexivity).
  assert (Eg : GetXposedOriginalMethod m' = GetXposedOriginalMethod m)
    by (unfold GetXposedOriginalMethod; rewrite Hjni; reflexivity).
  intros i mi Hi Hhi.
  assert (Hold : exists mi0, ms !! i = Some mi0 /\ IsXposedHookedMethod mi0 = true /\
                   GetXposedOriginalMethod mi = GetXposedOriginalMethod mi0).
  { rewrite lookup_insert in Hi. case_decide as Eji.
    - subst i. injection Hi as <-. exists m. rewrite Eh in Hhi. auto.
    - exists mi. auto. }
  destruct Hold as (mi0 & Hi0 & Hh0 & Eg0).
  destruct (Hwf i mi0 Hi0 Hh0) as (b & mb & Hb & Hmb & Hbh & Hbo).
  exists b. rewrite Eg0. rewrite lookup_insert. case_decide as Ejb.
  - subst b. rewrite Hj in Hmb. injection Hmb as <-.
    eexists. repeat split; [exact Hb | rewrite Eh; exact Hbh | rewrite Eo; exact Hbo].
  - exists mb. repeat split; assumption.
Qed.

Lemma EnableXposedHook_wf rt j a s s' :
  hooks_wf (methods s) -> EnableXposedHook rt j a s = Ok s' -> hooks_wf (methods s').
Proof.
  intros Hwf Hrun.
  destruct (methods s !! j) as [mj|] eqn:Hj;
    [|unfold EnableXposedHook in Hrun; rewrite Hj in Hrun; discriminate].
  destruct (IsXposedHookedMethod mj) eqn:Hh.
  { unfold EnableXposedHook in Hrun. rewrite Hj, Hh in Hrun. injection Hrun as <-. exact Hwf. }
  destruct (IsXposedOriginalMethod mj) eqn:Ho.
  { unfold EnableXposedHook in Hrun. rewrite Hj, Hh, Ho in Hrun. injection Hrun as <-.
    exact Hwf. }
  rewrite (EnableXposedHook_store rt j a s mj s' Hj Hh Ho Hrun).
  set (b' := fresh (dom (methods s))).
  assert (Hjb' : j <> b') by exact (fresh_neq _ _ _ Hj).
  intros i mi Hi Hhi. rewrite lookup_insert in Hi. case_decide as Eji.
  - subst i. injection Hi as <-. exists b', (backup_descriptor rt mj).
    split; [reflexivity|]. split.
    + rewrite lookup_insert_ne by exact Hjb'. apply lookup_insert_eq.
    + split; [apply backup_descriptor_not_hooked, Hh | apply backup_descriptor_is_backup].
  - rewrite lookup_insert in Hi. case_decide as Eb'i.
    + subst i. injection Hi as <-. rewrite backup_descriptor_not_hooked in Hhi by exact Hh.
      discriminate.
    + destruct (Hwf i mi Hi Hhi) as (b & mb & Hb & Hmb & Hbh & Hbo).
      assert (Hbj : b <> j) by (intros ->; congruence).
      assert (Hbb : b <> b') by (intros ->; unfold b' in Hmb; rewrite fresh_not_in in Hmb;
                                 discriminate).
      exists b, mb. split; [exact Hb|]. split; [|split; assumption].
      rewrite lookup_insert_ne by congruence. rewrite lookup_insert_ne by congruence.
      exact Hmb.
Qed.

Lemma step_wf rt fuel op s s' :
  hooks_wf (methods s) -> step rt fuel op s = Ok s' -> hooks_wf (methods s').
Proof.
  intros Hwf. destruct op as [j p f | j | j | j a]; cbn [step]; intros H.
  - destruct (RegisterNative_target _ _ _ _ _ _ H) as (t & mt & Ht1 & Ht2 & _ & ->).
    exact (registered_wf _ t mt p f Ht1 Ht2 Hwf).
  - destruct (UnregisterNative_target _ _ _ _ _ H) as (t & mt & Ht1 & Ht2 & _ & ->).
    exact (registered_wf _ t mt _ false Ht1 Ht2 Hwf).
  - destruct (InvalidateCompiledCode_target _ _ _ _ H) as (m & m' & Hm & -> & Hf & Hjni).
    exact (same_hook_fields_wf _ j m m' Hm Hf Hjni Hwf).
  - exact (EnableXposedHook_wf _ _ _ _ _ Hwf H).
Qed.

(** X19: Every successful sequence of RegisterNative, UnregisterNative,
    InvalidateCompiledCode and EnableXposedHook calls keeps the store well
    formed: each hooked descriptor's hook record names a descriptor of the
    store that is a backup and is not itself hooked, so forwarding a call
    from a hooked method to its backup always lands after one step. *)
Theorem run_keeps_hooks_wf (rt : Runtime) (fuel : nat) (ops : list Op) (s s' : State) :
  hooks_wf (methods s) -> run rt fuel ops s = Ok s' -> hooks_wf (methods s').
Proof.
  revert s. induction ops as [|op rest IH]; intros s Hwf H.
  - injection H as <-. exact Hwf.
  - cbn [run obind] in H. destruct (step rt fuel op s) as [s1|] eqn:E; [|discriminate].
    exact (IH s1 (step_wf _ _ _ _ _ Hwf E) H).
Qed.

Lemma registered_exclusive p f m :
  hook_flags_exclusive (registered p f m) = hook_flags_exclusive m.
Proof. unfold hook_flags_exclusive. rewrite registered_hooked, registered_original. reflexivity. Qed.

Lemma step_exclusive rt fuel op s s' :
  (forall i mi, methods s !! i = Some mi -> hook_flags_exclusive mi = true) ->
  step rt fuel op s = Ok s' ->
  forall i mi, methods s' !! i = Some mi -> hook_flags_exclusive mi = true.
Proof.
  intros Hinv. destruct op as [j p f | j | j | j a]; cbn [step]; intros H.
  - destruct (RegisterNative_target _ _ _ _ _ _ H) as (t & mt & Ht1 & _ & _ & ->).
    intros i mi. cbn [update_method set_methods methods]. rewrite lookup_insert.
    case_decide; [intros [= <-]; rewrite registered_exclusive; exact (Hinv t mt Ht1) | apply Hinv].
  - destruct (UnregisterNative_target _ _ _ _ _ H) as (t & mt & Ht1 & _ & _ & ->).
    intros i mi. cbn [update_method set_methods methods]. rewrite lookup_insert.
    case_decide; [intros [= <-]; rewrite registered_exclusive; exact (Hinv t mt Ht1) | apply Hinv].
  - destruct (InvalidateCompiledCode_target _ _ _ _ H) as (m & m' & Hm & -> & Hf & _).
    intros i mi. rewrite lookup_insert. case_decide; [|apply Hinv].
    intros [= <-]. rewrite <- (Hinv j m Hm). unfold hook_flags_exclusive,
      IsXposedHookedMethod, IsXposedOriginalMethod. rewrite Hf. reflexivity.
  - exact (EnableXposedHook_preserves_exclusive _ _ _ _ _ Hinv H).
Qed.

(** X20: Every successful sequence of the four descriptor operations keeps the
    hooked bit and the backup bit exclusive: if no descriptor carries both
    at the start, none carries both at the end. *)
Theorem run_keeps_hook_flags_exclusive (rt : Runtime) (fuel : nat) (ops : list Op)
    (s s' : State) :
  (forall i mi, methods s !! i = Some mi -> hook_flags_exclusive mi = true) ->
  run rt fuel ops s = Ok s' ->
  forall i mi, methods s' !! i = Some mi -> hook_flags_exclusive mi = true.
Proof.
  revert s. induction ops as [|op rest IH]; intros s Hinv H.
  - injection H as <-. exact Hinv.
  - cbn [run obind] in H. destruct (step rt fuel op s) as [s1|] eqn:E; [|discriminate].
    exact (IH s1 (step_exclusive _ _ _ _ _ Hinv E) H).
Qed.

(** ** Runs of the model used by the witnesses below *)

Lemma s_native_wf : hooks_wf (methods s_native).
Proof.
  intros i mi Hi Hhi. cbn [methods s_native] in Hi.
  rewrite lookup_singleton in Hi. case_decide; [|discriminate].
  injection Hi as <-. vm_compute in Hhi. discriminate.
Qed.

Lemma s_native_exclusive :
  forall i mi, methods s_native !! i = Some mi -> hook_flags_exclusive mi = true.
Proof.
  intros i mi Hi. cbn [methods s_native] in Hi.
  rewrite lookup_singleton in Hi. case_decide; [|discriminate].
  injection Hi as <-. vm_compute. reflexivity.
Qed.

Lemma s_hooked_wf : hooks_wf (methods s_hooked).
Proof.
  apply (EnableXposedHook_wf rt0 1 99 s_native); [exact s_native_wf|].
  vm_compute. reflexivity.
Qed.

Lemma RegisterNative_hooked_forwards_witness :
  hooks_wf (methods s_hooked) /\ methods s_hooked !! 1%nat = Some m_hooked /\
  IsXposedHookedMethod m_hooked = true /\
  RegisterNative 3 1 8192 true s_hooked = Ok (run_or s_hooked (RegisterNative 3 1 8192 true s_hooked)) /\
  exists b mb, GetXposedOriginalMethod m_hooked = Some b /\ b <> 1%nat /\
    methods s_hooked !! b = Some mb /\
    run_or s_hooked (RegisterNative 3 1 8192 true s_hooked)
      = update_method b (registered 8192 true mb) s_hooked.
Proof.
  assert (H1 : methods s_hooked !! 1%nat = Some m_hooked) by (vm_compute; reflexivity).
  assert (H2 : IsXposedHookedMethod m_hooked = true) by (vm_compute; reflexivity).
  assert (H3 : RegisterNative 3 1 8192 true s_hooked
               = Ok (run_or s_hooked (RegisterNative 3 1 8192 true s_hooked)))
    by (vm_compute; reflexivity).
  split; [exact s_hooked_wf|]. split; [exact H1|]. split; [exact H2|]. split; [exact H3|].
  exact (RegisterNative_hooked_forwards 3 1 8192 true s_hooked _ m_hooked s_hooked_wf H1 H2 H3).
Defined.

Lemma UnregisterNative_hooked_forwards_witness :
  hooks_wf (methods s_hooked) /\ methods s_hooked !! 1%nat = Some m_hooked /\
  IsXposedHookedMethod m_hooked = true /\
  UnregisterNative rt0 3 1 s_hooked = Ok (run_or s_hooked (UnregisterNative rt0 3 1 s_hooked)) /\
  exists b mb, GetXposedOriginalMethod m_hooked = Some b /\ b <> 1%nat /\
    methods s_hooked !! b = Some mb /\
    run_or s_hooked (UnregisterNative rt0 3 1 s_hooked)
      = update_method b (registered (JniDlsymLookupStub rt0) false mb) s_hooked.
Proof.
  assert (H1 : methods s_hooked !! 1%nat = Some m_hooked) by (vm_compute; reflexivity).
  assert (H2 : IsXposedHookedMethod m_hooked = true) by (vm_compute; reflexivity).
  assert (H3 : UnregisterNative rt0 3 1 s_hooked
               = Ok (run_or s_hooked (UnregisterNative rt0 3 1 s_hooked)))
    by (vm_compute; reflexivity).
  split; [exact s_hooked_wf|]. split; [exact H1|]. split; [exact H2|]. split; [exact H3|].
  exact (UnregisterNative_hooked_forwards rt0 3 1 s_hooked _ m_hooked s_hooked_wf H1 H2 H3).
Defined.

Lemma RegisterNative_UnregisterNative_roundtrip_witness :
  exists s1 s2,
    RegisterNative 2 1 8192 false s_native = Ok s1 /\
    methods s1 !! 1%nat = Some (set_entry_point_from_jni (JniPtr 8192) (set_access_flags 257 m0)) /\
    UnregisterNative rt0 2 1 s1 = Ok s2 /\
    methods s2 = <[1%nat := set_entry_point_from_jni (JniPtr (JniDlsymLookupStub rt0))
                              (set_access_flags 257 m0)]> (methods s_native) /\
    stacks s2 = stacks s_native /\ exception s2 = exception s_native.
Proof.
  apply RegisterNative_UnregisterNative_roundtrip;
    solve [reflexivity | vm_compute; reflexivity | discriminate].
Defined.

Lemma run_keeps_hooks_wf_witness :
  hooks_wf (methods s_native) /\
  run rt0 3 [OpEnableXposedHook 1 99; OpRegisterNative 1 8192 false; OpUnregisterNative 1;
             OpInvalidateCompiledCode 2] s_native
    = Ok (run_or s_native (run rt0 3 [OpEnableXposedHook 1 99; OpRegisterNative 1 8192 false;
                                      OpUnregisterNative 1; OpInvalidateCompiledCode 2] s_native)) /\
  hooks_wf (methods (run_or s_native (run rt0 3 [OpEnableXposedHook 1 99;
      OpRegisterNative 1 8192 false; OpUnregisterNative 1; OpInvalidateCompiledCode 2] s_native))).
Proof.
  assert (H : run rt0 3 [OpEnableXposedHook 1 99; OpRegisterNative 1 8192 false;
                         OpUnregisterNative 1; OpInvalidateCompiledCode 2] s_native
    = Ok (run_or s_native (run rt0 3 [OpEnableXposedHook 1 99; OpRegisterNative 1 8192 false;
                                      OpUnregisterNative 1; OpInvalidateCompiledCode 2] s_native)))
    by (vm_compute; reflexivity).
  split; [exact s_native_wf|]. split; [exact H|].
  exact (run_keeps_hooks_wf _ _ _ _ _ s_native_wf H).
Defined.

Lemma run_keeps_hook_flags_exclusive_witness :
  (forall i mi, methods s_native !! i = Some mi -> hook_flags_exclusive mi = true) /\
  run rt0 3 [OpEnableXposedHook 1 99; OpEnableXposedHook 2 5; OpInvalidateCompiledCode 2] s_native
    = Ok (run_or s_native (run rt0 3 [OpEnableXposedHook 1 99; OpEnableXposedHook 2 5;
                                      OpInvalidateCompiledCode 2] s_native)) /\
  forall i mi,
    methods (run_or s_native (run rt0 3 [OpEnableXposedHook 1 99; OpEnableXposedHook 2 5;
                                         OpInvalidateCompiledCode 2] s_native)) !! i = Some mi ->
    hook_flags_exclusive mi = true.
Proof.
  assert (H : run rt0 3 [OpEnableXposedHook 1 99; OpEnableXposedHook 2 5;
                         OpInvalidateCompiledCode 2] s_native
    = Ok (run_or s_native (run rt0 3 [OpEnableXposedHook 1 99; OpEnableXposedHook 2 5;
                                      OpInvalidateCompiledCode 2] s_native)))
    by (vm_compute; reflexivity).
  split; [exact s_native_exclusive|]. split; [exact H|].
  exact (run_keeps_hook_flags_exclusive _ _ _ _ _ s_native_exclusive H).
Defined.
